(** * butlerd router: dispatch core of the butler daemon

    Shallow embedding of [butlerd/router.go]: the method tables, the
    dispatch protocol (panic containment, progress wiring, error
    classification, reply encoding), the per-request context and the
    cancellation registry.

    Go packages the router only consumes (pkg/errors, neterr, werrors,
    encoding/json, fmt, progress, sqlite, jsonrpc2) are taken as
    parameters: their types in [GoTypes], their operations in [GoLibs].
    Every definition of the router is stated over these parameters, and a
    reference instance at the end of the definitions makes them run. *)

From Stdlib Require Import ZArith.
From Stdlib Require Import QArith.
From stdpp Require Import base option list gmap strings pretty.

Local Open Scope Z_scope.

(** ** Types of the consumed packages *)

Class GoTypes := {
  (** the builtin [error] interface: any non-nil error value *)
  error : Type;
  (** a non-nil, non-error value held in an [interface{}] *)
  value : Type;
  float64 : Type;
  time_Duration : Type;
  progress_Tracker : Type;
  sqlite_Conn : Type;
  sqlite_Pool : Type;
  itchio_Client : Type;
  models_Profile : Type;
  context_Context : Type;
  jsonrpc2_ID : Type;
  json_RawMessage : Type;
  (** whatever the opaque callbacks (cancel functions, notification
      interceptors) capture and mutate *)
  Heap : Type;
}.

Section DataModel.
Context `{T : GoTypes}.

(** [ProgressNotification], payload of the outbound "Progress" message. *)
Record ProgressNotification := {
  Progress : float64;
  ETA : float64;
  BPS : float64;
}.

(** A non-nil [interface{}] as the router handles it: strings it formats
    itself, the progress payload it builds, and any other value. A nil
    [interface{}] is [None] of [option any]. *)
Inductive any :=
| AnyString (s : string)
| AnyProgressNotification (n : ProgressNotification)
| AnyValue (v : value).

(** What [recover()] yields after a panic. The type switch [r.(error)] of
    Dispatch is the match on this type. A panic always carries a value:
    [panic(nil)] raises a [*runtime.PanicNilError], which is an error. *)
Inductive panic_value :=
| PanicError (e : error)
| PanicOther (v : any).

(** ** Go calls as state transformers that return or panic *)

Inductive Outcome (A : Type) :=
| Returned (a : A)
| Panicked (r : panic_value).
Global Arguments Returned {A} a.
Global Arguments Panicked {A} r.

Definition M (S A : Type) : Type := S -> Outcome A * S.

Definition ret {S A} (a : A) : M S A := fun s => (Returned a, s).

Definition panic {S A} (r : panic_value) : M S A := fun s => (Panicked r, s).

Definition bind {S A B} (c : M S A) (k : A -> M S B) : M S B :=
  fun s =>
    match c s with
    | (Returned a, s') => k a s'
    | (Panicked r, s') => (Panicked r, s')
    end.

Definition get {S} : M S S := fun s => (Returned s, s).

Definition modify {S} (f : S -> S) : M S unit := fun s => (Returned tt, f s).

(** [defer d; body]: [d] runs when [body] leaves, by return or by panic. *)
Definition defer {S A} (d : S -> S) (body : M S A) : M S A :=
  fun s => let '(o, s') := body s in (o, d s').

(** Run a computation on a component of the state. *)
Definition zoom {S S' A} (proj : S -> S') (inj : S' -> S -> S)
    (c : M S' A) : M S A :=
  fun s => let '(o, s') := c (proj s) in (o, inj s' s).

(** ** Stores *)

(** [context.CancelFunc] *)
Definition CancelFunc : Type := Heap -> Heap.

(** [type NotificationInterceptor func(method string, params interface{}) error] *)
Definition NotificationInterceptor : Type :=
  string -> any -> M Heap (option error).

(** A message handed to the transport through the [Conn] capability. *)
Inductive Outbound :=
| OutNotify (method : string) (params : any)
| OutCall (method : string) (params : any).

(** State that outlives one call: the registry [CancelFuncs.Funcs], the
    connection pool, the callbacks' heap, the messages handed to the
    transport by [Conn], and the consumer's log. *)
Record Shared := {
  Funcs : gmap string CancelFunc;
  DBPool : sqlite_Pool;
  heap : Heap;
  outbound : list Outbound;
  consumer_log : list (string * string);
}.

(** What a handler reaches through its [*RequestContext]: the shared
    state and the two mutable fields of the context. *)
Record Store := {
  shared : Shared;
  notificationInterceptors : option (gmap string NotificationInterceptor);
  tracker : option progress_Tracker;
}.

Definition with_Funcs (f : gmap string CancelFunc) (s : Shared) : Shared :=
  {| Funcs := f; DBPool := DBPool s; heap := heap s;
     outbound := outbound s; consumer_log := consumer_log s |}.

Definition with_DBPool (p : sqlite_Pool) (s : Shared) : Shared :=
  {| Funcs := Funcs s; DBPool := p; heap := heap s;
     outbound := outbound s; consumer_log := consumer_log s |}.

Definition with_heap (h : Heap) (s : Shared) : Shared :=
  {| Funcs := Funcs s; DBPool := DBPool s; heap := h;
     outbound := outbound s; consumer_log := consumer_log s |}.

Definition with_outbound (o : list Outbound) (s : Shared) : Shared :=
  {| Funcs := Funcs s; DBPool := DBPool s; heap := heap s;
     outbound := o; consumer_log := consumer_log s |}.

Definition with_consumer_log (l : list (string * string)) (s : Shared) : Shared :=
  {| Funcs := Funcs s; DBPool := DBPool s; heap := heap s;
     outbound := outbound s; consumer_log := l |}.

Definition with_shared (sh : Shared) (s : Store) : Store :=
  {| shared := sh; notificationInterceptors := notificationInterceptors s;
     tracker := tracker s |}.

Definition with_notificationInterceptors
    (t : option (gmap string NotificationInterceptor)) (s : Store) : Store :=
  {| shared := shared s; notificationInterceptors := t; tracker := tracker s |}.

Definition with_tracker (t : option progress_Tracker) (s : Store) : Store :=
  {| shared := shared s; notificationInterceptors := notificationInterceptors s;
     tracker := t |}.

Definition on_shared {A} (c : M Shared A) : M Store A :=
  zoom shared with_shared c.

Definition on_heap {A} (c : M Heap A) : M Store A :=
  on_shared (zoom heap with_heap c).

(** ** Interfaces and structs of the package *)

(** [type Conn interface]: the transport as handlers see it. *)
Record Conn := {
  Conn_Notify : context_Context -> string -> any -> M Shared (option error);
  Conn_Call : context_Context -> string -> any -> M Shared (option any * option error);
}.

(** The progress hooks of [state.Consumer]; a nil hook is [None]. *)
Record Consumer := {
  OnProgress : option (float64 -> M Store unit);
  OnProgressLabel : option (string -> M Store unit);
  OnPauseProgress : option (M Store unit);
  OnResumeProgress : option (M Store unit);
}.

(** [type RequestContext struct], its immutable fields. [CancelFuncs] and
    [DBPool] point into [Shared]; [notificationInterceptors] and
    [tracker] live in [Store]. *)
Record RequestContext := {
  rc_Ctx : context_Context;
  rc_Consumer : Consumer;
  rc_Params : option json_RawMessage;
  rc_Conn : Conn;
  rc_Client : string -> itchio_Client;
  rc_ButlerVersion : string;
  rc_ButlerVersionString : string;
}.

(** [type RequestHandler func(rc *RequestContext) (interface{}, error)] *)
Definition RequestHandler : Type :=
  RequestContext -> M Store (option any * option error).

(** [type NotificationHandler func(rc *RequestContext)] *)
Definition NotificationHandler : Type := RequestContext -> M Store unit.

(** [type Router struct]; [CancelFuncs] and [dbPool] are in [Shared]. *)
Record Router := {
  Handlers : gmap string RequestHandler;
  NotificationHandlers : gmap string NotificationHandler;
  getClient : string -> itchio_Client;
  ButlerVersion : string;
  ButlerVersionString : string;
}.

(** [jsonrpc2.Request] *)
Record jsonrpc2_Request := {
  Method : string;
  Params : option json_RawMessage;
  ID : jsonrpc2_ID;
  Notif : bool;
}.

(** [jsonrpc2.Error] *)
Record jsonrpc2_Error := {
  Code : Z;
  Message : string;
  Data : option json_RawMessage;
}.

(** [*jsonrpc2.Conn]: the live connection. A send on it answers with
    [conn_err], nil while the connection is healthy. *)
Record jsonrpc2_Conn := {
  conn_err : option error;
}.

(** What Dispatch itself sends on the connection. *)
Inductive Reply :=
| SentReply (id : jsonrpc2_ID) (result : option any)
| SentError (id : jsonrpc2_ID) (e : jsonrpc2_Error).

(** Everything a Dispatch can touch: the shared state and the replies it
    asked the connection to send. Handlers run on [Store], which has no
    [replies]: a handler holds the connection as a [Conn], which has
    [Notify] and [Call] and no reply method. *)
Record World := {
  w_shared : Shared;
  replies : list Reply;
}.

(** The methods of the [butlerd.Error] interface, as they answer for one
    error value. A nil map is [None]. *)
Record ButlerdError := {
  RpcErrorCode : Z;
  RpcErrorMessage : string;
  RpcErrorData : option (gmap string any);
}.

End DataModel.

(** ** Operations of the consumed packages *)

Class GoLibs `{T : GoTypes} := {
  (** builtin and fmt *)
  error_Error : error -> string;              (* err.Error() *)
  error_eqb : error -> error -> bool;         (* == on two error values *)
  fmt_plus_v : error -> string;               (* fmt.Sprintf("%+v", err) *)
  fmt_v : any -> string;                      (* fmt.Sprintf("%v", r) *)
  fmt_d : Z -> string;                        (* fmt.Sprintf("%d", n) *)
  float64_zero : float64;                     (* the literal 0.0 *)
  (** github.com/pkg/errors; [errors_Errorf] takes the formatted message *)
  errors_New : string -> error;
  errors_Errorf : string -> error;
  errors_WithStack : error -> error;
  errors_Cause : error -> error;
  (** github.com/itchio/wharf/werrors, github.com/itchio/httpkit/neterr *)
  werrors_ErrCancelled : error;
  neterr_IsNetworkError : error -> bool;
  (** encoding/json: [None] when [json.Marshal] returns an error *)
  json_Marshal : gmap string any -> option json_RawMessage;
  (** github.com/itchio/httpkit/progress and time *)
  progress_NewTracker : progress_Tracker;
  Tracker_SetSilent : bool -> progress_Tracker -> progress_Tracker;
  Tracker_SetProgress : float64 -> progress_Tracker -> progress_Tracker;
  Tracker_SetTotalBytes : Z -> progress_Tracker -> progress_Tracker;
  Tracker_Start : progress_Tracker -> progress_Tracker;
  Tracker_Finish : progress_Tracker -> progress_Tracker;
  Tracker_Pause : progress_Tracker -> progress_Tracker;
  Tracker_Resume : progress_Tracker -> progress_Tracker;
  Tracker_ETA : progress_Tracker -> time_Duration;
  Tracker_BPS : progress_Tracker -> float64;
  Duration_Seconds : time_Duration -> float64;
  (** crawshaw.io/sqlite: [Get] hands out a connection, [Put] takes it back *)
  Pool_Get : context_Context -> sqlite_Pool -> sqlite_Conn * sqlite_Pool;
  Pool_Put : sqlite_Conn -> sqlite_Pool -> sqlite_Pool;
  (** package butlerd, files other than router.go *)
  AsButlerdError : error -> option ButlerdError;
  RpcError : Z -> string -> error;            (* &RpcError{Code: c, Message: m} *)
  CodeNetworkDisconnected : Z;
  CodeOperationCancelled : Z;
  Code_Error : Z -> string;                   (* Code.Error() *)
  NewStateConsumer : context_Context -> Conn -> Consumer * option error;
  (** package database/models *)
  models_ProfileByID : sqlite_Conn -> Z -> option models_Profile;
  Profile_APIKey : models_Profile -> string;
}.

Declare Scope go_scope.
Delimit Scope go_scope with go.
Notation "'let*' x ':=' c 'in' k" := (bind c (fun x => k))
  (at level 10, x name, c at level 100, k at level 200, only parsing) : go_scope.
Notation "'let*' ' p ':=' c 'in' k" :=
  (bind c (fun x => match x with p => k end))
  (at level 10, p pattern, c at level 100, k at level 200, only parsing) : go_scope.

Section Router.
Context `{L : GoLibs}.
Local Open Scope go_scope.
Local Open Scope string_scope.

(** [jsonrpc2.CodeMethodNotFound] and [jsonrpc2.CodeInternalError] *)
Definition jsonrpc2_CodeMethodNotFound : Z := -32601.
Definition jsonrpc2_CodeInternalError : Z := -32603.

(** ** state.Consumer *)

(** [Warnf] and [Errorf] hand a levelled message to the consumer's sink. *)
Definition Consumer_Warnf (c : Consumer) (msg : string) : M Shared unit :=
  modify (fun s => with_consumer_log (consumer_log s ++ [("warning", msg)]) s).

Definition Consumer_Errorf (c : Consumer) (msg : string) : M Shared unit :=
  modify (fun s => with_consumer_log (consumer_log s ++ [("error", msg)]) s).

(** [Progress], [ProgressLabel], [PauseProgress], [ResumeProgress] call
    the hook when it is set. *)
Definition Consumer_Progress (c : Consumer) (alpha : float64) : M Store unit :=
  match OnProgress c with Some f => f alpha | None => ret tt end.

Definition Consumer_ProgressLabel (c : Consumer) (label : string) : M Store unit :=
  match OnProgressLabel c with Some f => f label | None => ret tt end.

Definition Consumer_PauseProgress (c : Consumer) : M Store unit :=
  match OnPauseProgress c with Some f => f | None => ret tt end.

Definition Consumer_ResumeProgress (c : Consumer) : M Store unit :=
  match OnResumeProgress c with Some f => f | None => ret tt end.

(** ** CancelFuncs *)

Definition CancelFuncs_Add (id : string) (f : CancelFunc) : M Shared unit :=
  modify (fun s => with_Funcs (<[id := f]> (Funcs s)) s).

Definition CancelFuncs_Remove (id : string) : M Shared unit :=
  modify (fun s => with_Funcs (delete id (Funcs s)) s).

Definition CancelFuncs_Call (id : string) : M Shared bool :=
  let* s := get in
  match Funcs s !! id with
  | Some f =>
      let* _ := modify (fun s => with_heap (f (heap s)) s) in
      let* _ := modify (fun s => with_Funcs (delete id (Funcs s)) s) in
      ret true
  | None => ret false
  end.

(** ** RequestContext *)

Definition RequestContext_Call (rc : RequestContext) (method : string)
    (params : any) : M Store (option any * option error) :=
  on_shared (Conn_Call (rc_Conn rc) (rc_Ctx rc) method params).

Definition InterceptNotification (rc : RequestContext) (method : string)
    (interceptor : NotificationInterceptor) : M Store unit :=
  let* s := get in
  let tbl :=
    match notificationInterceptors s with
    | None => ∅
    | Some tbl => tbl
    end in
  modify (with_notificationInterceptors (Some (<[method := interceptor]> tbl))).

Definition StopInterceptingNotification (rc : RequestContext)
    (method : string) : M Store unit :=
  let* s := get in
  match notificationInterceptors s with
  | None => ret tt
  | Some tbl => modify (with_notificationInterceptors (Some (delete method tbl)))
  end.

Definition Notify (rc : RequestContext) (method : string) (params : any)
    : M Store (option error) :=
  let* s := get in
  match notificationInterceptors s with
  | Some tbl =>
      match tbl !! method with
      | Some ni => on_heap (ni method params)
      | None => on_shared (Conn_Notify (rc_Conn rc) (rc_Ctx rc) method params)
      end
  | None => on_shared (Conn_Notify (rc_Conn rc) (rc_Ctx rc) method params)
  end.

(** The interceptor a context holds for a method, if any: what the two
    tests of [Notify] look for. *)
Definition interceptor_for (s : Store) (method : string)
    : option NotificationInterceptor :=
  match notificationInterceptors s with
  | Some tbl => tbl !! method
  | None => None
  end.

Definition RootClient (rc : RequestContext) : itchio_Client :=
  rc_Client rc "<keyless>".

(** [rc.DBPool.Get(rc.Ctx.Done())] and [rc.DBPool.Put(conn)] *)
Definition DBPool_Get (rc : RequestContext) : M Store sqlite_Conn :=
  on_shared (fun s =>
    let '(conn, p) := Pool_Get (rc_Ctx rc) (DBPool s) in
    (Returned conn, with_DBPool p s)).

Definition DBPool_Put (conn : sqlite_Conn) (s : Store) : Store :=
  with_shared (with_DBPool (Pool_Put conn (DBPool (shared s))) (shared s)) s.

Definition ProfileClient (rc : RequestContext) (profileID : Z)
    : M Store (models_Profile * itchio_Client) :=
  if (profileID =? 0)%Z then
    panic (PanicError (errors_New "profileId must be non-zero"))
  else
    let* conn := DBPool_Get rc in
    defer (DBPool_Put conn)
      match models_ProfileByID conn profileID with
      | None =>
          panic (PanicError
            (errors_Errorf ("Could not find profile " ++ fmt_d profileID)))
      | Some profile =>
          if String.eqb (Profile_APIKey profile) "" then
            panic (PanicError
              (errors_Errorf ("Profile " ++ fmt_d profileID ++ " lacks API key")))
          else
            ret (profile, rc_Client rc (Profile_APIKey profile))
      end.

Definition StartProgressWithInitialAndTotal (rc : RequestContext)
    (initialProgress : float64) (totalBytes : Z) : M Store unit :=
  let* s := get in
  match tracker s with
  | Some _ =>
      on_shared (Consumer_Warnf (rc_Consumer rc)
        "Asked to start progress but already tracking progress!")
  | None =>
      let t := progress_NewTracker in
      let t := Tracker_SetSilent true t in
      let t := Tracker_SetProgress initialProgress t in
      let t := Tracker_SetTotalBytes totalBytes t in
      let t := Tracker_Start t in
      modify (with_tracker (Some t))
  end.

Definition StartProgressWithTotalBytes (rc : RequestContext) (totalBytes : Z)
    : M Store unit :=
  StartProgressWithInitialAndTotal rc float64_zero totalBytes.

Definition StartProgress (rc : RequestContext) : M Store unit :=
  StartProgressWithTotalBytes rc 0.

Definition EndProgress (rc : RequestContext) : M Store unit :=
  let* s := get in
  match tracker s with
  | Some t =>
      let* _ := modify (with_tracker (Some (Tracker_Finish t))) in
      modify (with_tracker None)
  | None =>
      on_shared (Consumer_Warnf (rc_Consumer rc)
        "Asked to stop progress but wasn't tracking progress!")
  end.

Definition WithConn (rc : RequestContext) (f : sqlite_Conn -> M Store unit)
    : M Store unit :=
  let* conn := DBPool_Get rc in
  defer (DBPool_Put conn) (f conn).

Definition WithConnBool (rc : RequestContext) (f : sqlite_Conn -> M Store bool)
    : M Store bool :=
  let* conn := DBPool_Get rc in
  defer (DBPool_Put conn) (f conn).

(** ** Router *)

(** [NewRouter]: empty method tables. The registry and the pool it also
    sets up are the [Funcs] and [DBPool] of [NewRouter_shared]. *)
Definition NewRouter (getClient : string -> itchio_Client) : Router :=
  {| Handlers := ∅; NotificationHandlers := ∅; getClient := getClient;
     ButlerVersion := ""; ButlerVersionString := "" |}.

Definition NewRouter_shared (dbPool : sqlite_Pool) (h : Heap) : Shared :=
  {| Funcs := ∅; DBPool := dbPool; heap := h; outbound := [];
     consumer_log := [] |}.

Definition with_Handlers (h : gmap string RequestHandler) (r : Router) : Router :=
  {| Handlers := h; NotificationHandlers := NotificationHandlers r;
     getClient := getClient r; ButlerVersion := ButlerVersion r;
     ButlerVersionString := ButlerVersionString r |}.

Definition with_NotificationHandlers (h : gmap string NotificationHandler)
    (r : Router) : Router :=
  {| Handlers := Handlers r; NotificationHandlers := h;
     getClient := getClient r; ButlerVersion := ButlerVersion r;
     ButlerVersionString := ButlerVersionString r |}.

Definition Register (method : string) (rh : RequestHandler) : M Router unit :=
  let* r := get in
  match Handlers r !! method with
  | Some _ =>
      panic (PanicOther (AnyString ("Can't register handler twice for " ++ method)))
  | None => modify (with_Handlers (<[method := rh]> (Handlers r)))
  end.

Definition RegisterNotification (method : string) (nh : NotificationHandler)
    : M Router unit :=
  let* r := get in
  match NotificationHandlers r !! method with
  | Some _ =>
      panic (PanicOther (AnyString ("Can't register handler twice for " ++ method)))
  | None => modify (with_NotificationHandlers (<[method := nh]> (NotificationHandlers r)))
  end.

(** ** Dispatch *)

(** Modelled from the spec: [JsonRPC2Conn], the adapter of conn.go that
    gives a [*jsonrpc2.Conn] the [Conn] capability ([Notify], [Call]).
    Each call hands one message to the transport and answers with the
    connection's error. *)
Definition JsonRPC2Conn (origConn : jsonrpc2_Conn) : Conn :=
  {| Conn_Notify := fun _ method params s =>
       (Returned (conn_err origConn),
        with_outbound (outbound s ++ [OutNotify method params]) s);
     Conn_Call := fun _ method params s =>
       (Returned (None, conn_err origConn),
        with_outbound (outbound s ++ [OutCall method params]) s) |}.

(** [origConn.Reply] and [origConn.ReplyWithError] *)
Definition with_replies (l : list Reply) (w : World) : World :=
  {| w_shared := w_shared w; replies := l |}.

Definition with_w_shared (sh : Shared) (w : World) : World :=
  {| w_shared := sh; replies := replies w |}.

Definition jsonrpc2_Reply (origConn : jsonrpc2_Conn) (id : jsonrpc2_ID)
    (result : option any) : M World (option error) :=
  fun w => (Returned (conn_err origConn),
            with_replies (replies w ++ [SentReply id result]) w).

Definition jsonrpc2_ReplyWithError (origConn : jsonrpc2_Conn) (id : jsonrpc2_ID)
    (respErr : jsonrpc2_Error) : M World (option error) :=
  fun w => (Returned (conn_err origConn),
            with_replies (replies w ++ [SentError id respErr]) w).

(** A call runs on the shared state with the two mutable fields of its
    fresh [RequestContext] at their zero values. *)
Definition fresh_store (w : World) : Store :=
  {| shared := w_shared w; notificationInterceptors := None; tracker := None |}.

Definition in_call {A} (c : M Store A) : M World A :=
  zoom fresh_store (fun st => with_w_shared (shared st)) c.

Definition with_rc_Consumer (c : Consumer) (rc : RequestContext) : RequestContext :=
  {| rc_Ctx := rc_Ctx rc; rc_Consumer := c; rc_Params := rc_Params rc;
     rc_Conn := rc_Conn rc; rc_Client := rc_Client rc;
     rc_ButlerVersion := rc_ButlerVersion rc;
     rc_ButlerVersionString := rc_ButlerVersionString rc |}.

(** Lines 106-133: the four hooks Dispatch sets on [rc.Consumer] before
    it calls a request handler. *)
Definition progress_hooks (rc : RequestContext) : Consumer :=
  {| OnProgress := Some (fun alpha =>
       let* s := get in
       match tracker s with
       | None => ret tt
       | Some t =>
           let t := Tracker_SetProgress alpha t in
           let* _ := modify (with_tracker (Some t)) in
           let notif :=
             {| Progress := alpha;
                ETA := Duration_Seconds (Tracker_ETA t);
                BPS := Tracker_BPS t |} in
           let* _ := Notify rc "Progress" (AnyProgressNotification notif) in
           ret tt
       end);
     OnProgressLabel := Some (fun label => ret tt);
     OnPauseProgress := Some (
       let* s := get in
       match tracker s with
       | Some t => modify (with_tracker (Some (Tracker_Pause t)))
       | None => ret tt
       end);
     OnResumeProgress := Some (
       let* s := get in
       match tracker s with
       | Some t => modify (with_tracker (Some (Tracker_Resume t)))
       | None => ret tt
       end) |}.

(** Lines 100-143: the body of the closure, which yields [(res, err)]. *)
Definition invoke (r : Router) (req : jsonrpc2_Request) (rc : RequestContext)
    : M Store (option any * option error) :=
  if Notif req then
    match NotificationHandlers r !! Method req with
    | Some nh => let* _ := nh rc in ret (None, None)
    | None => ret (None, None)
    end
  else
    match Handlers r !! Method req with
    | Some h => h (with_rc_Consumer (progress_hooks rc) rc)
    | None =>
        ret (None, Some (RpcError jsonrpc2_CodeMethodNotFound
                           ("Method '" ++ Method req ++ "' not found")))
    end.

(** Lines 77-85: the deferred [recover()]. After a panic [res] keeps its
    zero value and [err] is set from the recovered value. *)
Definition recovering (body : M Store (option any * option error))
    : M Store (option any * option error) :=
  fun s =>
    match body s with
    | (Returned x, s') => (Returned x, s')
    | (Panicked (PanicError rErr), s') =>
        (Returned (None, Some (errors_WithStack rErr)), s')
    | (Panicked (PanicOther v), s') =>
        (Returned (None, Some (errors_Errorf ("panic: " ++ fmt_v v))), s')
    end.

(** Lines 158-177: code, message and data of the wire error. *)
Definition classify (err : error) : Z * string * option (gmap string any) :=
  match AsButlerdError err with
  | Some ee => (RpcErrorCode ee, RpcErrorMessage ee, RpcErrorData ee)
  | None =>
      if neterr_IsNetworkError err then
        (CodeNetworkDisconnected, Code_Error CodeNetworkDisconnected, None)
      else if error_eqb (errors_Cause err) werrors_ErrCancelled then
        (CodeOperationCancelled, Code_Error CodeOperationCancelled, None)
      else
        (jsonrpc2_CodeInternalError, error_Error err, None)
  end.

(** Lines 179-184: the map given to [json.Marshal], which is the
    failure's own map when it has one, with the two keys written into it. *)
Definition error_data (r : Router) (err : error)
    (data : option (gmap string any)) : gmap string any :=
  let data := match data with None => ∅ | Some d => d end in
  let data := <["stack" := AnyString (fmt_plus_v err)]> data in
  <["butlerVersion" := AnyString (ButlerVersionString r)]> data.

(** Lines 158-196: the error reply. [rawData] stays nil when
    [json.Marshal] fails. *)
Definition reply_error (r : Router) (origConn : jsonrpc2_Conn)
    (req : jsonrpc2_Request) (err : error) : M World unit :=
  let '(code, message, data) := classify err in
  let rawData := json_Marshal (error_data r err data) in
  let* _ := jsonrpc2_ReplyWithError origConn (ID req)
              {| Code := code; Message := message; Data := rawData |} in
  ret tt.

(** Lines 87-98: the context built for the call. *)
Definition request_context (r : Router) (ctx : context_Context) (conn : Conn)
    (consumer : Consumer) (req : jsonrpc2_Request) : RequestContext :=
  {| rc_Ctx := ctx; rc_Consumer := consumer; rc_Params := Params req;
     rc_Conn := conn; rc_Client := getClient r;
     rc_ButlerVersion := ButlerVersion r;
     rc_ButlerVersionString := ButlerVersionString r |}.

Definition Dispatch (r : Router) (ctx : context_Context)
    (origConn : jsonrpc2_Conn) (req : jsonrpc2_Request) : M World unit :=
  let conn := JsonRPC2Conn origConn in
  let '(consumer, cErr) := NewStateConsumer ctx conn in
  match cErr with
  | Some _ => ret tt
  | None =>
      let rc := request_context r ctx conn consumer req in
      let* '(res, err) := in_call (recovering (invoke r req rc)) in
      if Notif req then ret tt
      else
        match err with
        | None =>
            let* err := jsonrpc2_Reply origConn (ID req) res in
            match err with
            | Some err =>
                zoom w_shared with_w_shared
                  (Consumer_Errorf consumer
                     ("Error while replying: " ++ error_Error err))
            | None => ret tt
            end
        | Some err => reply_error r origConn req err
        end
  end.

End Router.

(** ** Reading the replies *)

Section Replies.
Context `{T : GoTypes}.


End Replies.

(** ** A reference instance

    Concrete stand-ins for the consumed packages, on which the router
    runs: pkg/errors values with their cause chain, a JSON encoder that
    rejects NaN, a pool of numbered connections, a two-row profile
    table. *)

Module Reference.

Local Open Scope string_scope.

(** Values: a number, or a NaN float (which encoding/json refuses to encode). *)
Inductive ref_value :=
| VNumber (n : Z)
| VNaN.

(** One encoded JSON member. *)
Inductive ref_datum :=
| DString (s : string)
| DProgress (progress eta bps : Q)
| DValue (v : ref_value).

Inductive ref_error :=
| Fundamental (msg : string)        (* errors.New, errors.Errorf *)
| WithStack (e : ref_error)         (* errors.WithStack *)
| Rpc (code : Z) (msg : string) (data : option (list (string * ref_datum)))
                                    (* *RpcError *)
| Cancelled                         (* werrors.ErrCancelled *)
| NetOp (msg : string).             (* *net.OpError *)

Record ref_tracker := {
  t_silent : bool;
  t_progress : Q;
  t_total : Z;
  t_running : bool;
}.

Record ref_profile := {
  p_id : Z;
  p_APIKey : string;
}.

Global Instance ref_value_eq_dec : EqDecision ref_value.
Proof. solve_decision. Defined.
Global Instance Q_eq_dec : EqDecision Q.
Proof. solve_decision. Defined.
Global Instance ref_datum_eq_dec : EqDecision ref_datum.
Proof. solve_decision. Defined.
Global Instance ref_error_eq_dec : EqDecision ref_error.
Proof. solve_decision. Defined.

(** Rationals stand for [float64] and for durations in seconds: the
    router passes these values on and computes nothing with them. *)
#[global] Instance RefTypes : GoTypes := {|
  error := ref_error;
  value := ref_value;
  float64 := Q;
  time_Duration := Q;
  progress_Tracker := ref_tracker;
  sqlite_Conn := nat;
  sqlite_Pool := list nat;
  itchio_Client := string;
  models_Profile := ref_profile;
  context_Context := bool;
  jsonrpc2_ID := nat;
  json_RawMessage := list (string * ref_datum);
  Heap := list string;
|}.

Fixpoint ref_Error (e : ref_error) : string :=
  match e with
  | Fundamental msg => msg
  | WithStack e => ref_Error e
  | Rpc code msg _ => "JSON-RPC Error: " ++ msg
  | Cancelled => "operation was cancelled"
  | NetOp msg => msg
  end.

Definition ref_trace : string := "
butlerd.(*Router).Dispatch
	butlerd/router.go".

Fixpoint ref_plus_v (e : ref_error) : string :=
  match e with
  | Fundamental msg => msg ++ ref_trace
  | WithStack e => ref_plus_v e ++ ref_trace
  | _ => ref_Error e
  end.

Fixpoint ref_Cause (e : ref_error) : ref_error :=
  match e with
  | WithStack e => ref_Cause e
  | _ => e
  end.

Definition ref_decode (d : ref_datum) : any :=
  match d with
  | DString s => AnyString s
  | DProgress p e b => AnyProgressNotification {| Progress := p; ETA := e; BPS := b |}
  | DValue v => AnyValue v
  end.

Definition ref_encode (a : any) : option ref_datum :=
  match a with
  | AnyString s => Some (DString s)
  | AnyProgressNotification n => Some (DProgress (Progress n) (ETA n) (BPS n))
  | AnyValue (VNumber n) => Some (DValue (VNumber n))
  | AnyValue VNaN => None
  end.

Definition ref_Marshal (m : gmap string any) : option (list (string * ref_datum)) :=
  mapM (fun kv => pair (fst kv) <$> ref_encode (snd kv)) (map_to_list m).

Fixpoint ref_AsButlerdError (e : ref_error) : option ButlerdError :=
  match e with
  | Rpc code msg data =>
      Some {| RpcErrorCode := code; RpcErrorMessage := msg;
              RpcErrorData := (fun l => list_to_map (prod_map id ref_decode <$> l)) <$> data |}
  | WithStack e => ref_AsButlerdError e
  | _ => None
  end.

Definition ref_IsNetworkError (e : ref_error) : bool :=
  match ref_Cause e with NetOp _ => true | _ => false end.

Definition ref_fmt_v (a : any) : string :=
  match a with
  | AnyString s => s
  | AnyProgressNotification _ => "&{...}"
  | AnyValue (VNumber n) => pretty n
  | AnyValue VNaN => "NaN"
  end.

Definition ref_set_progress (a : Q) (t : ref_tracker) : ref_tracker :=
  {| t_silent := t_silent t; t_progress := a; t_total := t_total t;
     t_running := t_running t |}.

Definition ref_set_running (b : bool) (t : ref_tracker) : ref_tracker :=
  {| t_silent := t_silent t; t_progress := t_progress t; t_total := t_total t;
     t_running := b |}.

Definition ref_profiles (id : Z) : option ref_profile :=
  if (id =? 1)%Z then Some {| p_id := 1; p_APIKey := "key-of-1" |}
  else if (id =? 2)%Z then Some {| p_id := 2; p_APIKey := "" |}
  else None.

(** A nil context makes [NewStateConsumer] fail. *)
Definition ref_NewStateConsumer (ctx : bool) (conn : Conn) : Consumer * option ref_error :=
  ({| OnProgress := None; OnProgressLabel := None;
      OnPauseProgress := None; OnResumeProgress := None |},
   if ctx then None else Some (Fundamental "NewStateConsumer: missing Ctx")).

#[global] Instance RefLibs : GoLibs := {|
  error_Error := ref_Error;
  error_eqb := fun a b => bool_decide (a = b);
  fmt_plus_v := ref_plus_v;
  fmt_v := ref_fmt_v;
  fmt_d := pretty;
  float64_zero := 0%Q;
  errors_New := Fundamental;
  errors_Errorf := Fundamental;
  errors_WithStack := WithStack;
  errors_Cause := ref_Cause;
  werrors_ErrCancelled := Cancelled;
  neterr_IsNetworkError := ref_IsNetworkError;
  json_Marshal := ref_Marshal;
  progress_NewTracker :=
    {| t_silent := false; t_progress := 0%Q; t_total := 0; t_running := false |};
  Tracker_SetSilent := fun b t =>
    {| t_silent := b; t_progress := t_progress t; t_total := t_total t;
       t_running := t_running t |};
  Tracker_SetProgress := ref_set_progress;
  Tracker_SetTotalBytes := fun n t =>
    {| t_silent := t_silent t; t_progress := t_progress t; t_total := n;
       t_running := t_running t |};
  Tracker_Start := ref_set_running true;
  Tracker_Finish := ref_set_running false;
  Tracker_Pause := ref_set_running false;
  Tracker_Resume := ref_set_running true;
  Tracker_ETA := fun _ => 0%Q;
  Tracker_BPS := fun _ => 0%Q;
  Duration_Seconds := fun d => d;
  Pool_Get := fun _ p =>
    match p with
    | conn :: p => (conn, p)
    | [] => (O, [])
    end;
  Pool_Put := fun conn p => (p ++ [conn])%list;
  AsButlerdError := ref_AsButlerdError;
  RpcError := fun code msg => Rpc code msg None;
  CodeNetworkDisconnected := 9000;
  CodeOperationCancelled := 499;
  Code_Error := fun c => "butlerd error " ++ pretty c;
  NewStateConsumer := ref_NewStateConsumer;
  models_ProfileByID := fun _ id => ref_profiles id;
  Profile_APIKey := p_APIKey;
|}.

End Reference.

(** ** A reference daemon

    A router over the reference instance with one request handler per
    kind of failure, and the world it starts in. *)

Module Daemon.
Import Reference.
Local Open Scope string_scope.

Definition conn : jsonrpc2_Conn := {| conn_err := None |}.

(** A live context, and the nil context. *)
Definition background : context_Context := true.
Definition no_context : context_Context := false.

Definition world : World :=
  {| w_shared := NewRouter_shared [7; 8]%nat []; replies := [] |}.

Definition request (method : string) (id : nat) : jsonrpc2_Request :=
  {| Method := method; Params := None; ID := id; Notif := false |}.

Definition notification (method : string) : jsonrpc2_Request :=
  {| Method := method; Params := None; ID := O; Notif := true |}.

Definition failing (e : ref_error) : RequestHandler :=
  fun _ => ret (None, Some e).

Definition panicking (p : panic_value) : RequestHandler :=
  fun _ => panic p.

(** [rc.StartProgress()] then one progress signal of one half. *)
Definition reporting : RequestHandler :=
  fun rc =>
    (let* _ := StartProgress rc in
     let* _ := Consumer_Progress (rc_Consumer rc) (1 # 2)%Q in
     ret (None, None))%go.

(** The failures the handlers below produce. *)
Definition refused_dial : error := WithStack (NetOp "dial tcp: connection refused").
Definition nil_map_write : error := Fundamental "assignment to entry in nil map".
Definition missing_ctx : error := Fundamental "NewStateConsumer: missing Ctx".

(** The error reply to "Fail.Rpc". *)
Definition boom_reply : jsonrpc2_Error :=
  {| Code := 42; Message := "boom";
     Data := Some [("stack", DString "JSON-RPC Error: boom");
                   ("butlerVersion", DString "v15.21.0, built on Apr 1 2021");
                   ("detail", DString "x")] |}.

Definition register_all (l : list (string * RequestHandler)) (r : Router) : Router :=
  foldr (fun mh r => snd (Register (fst mh) (snd mh) r)) r l.

Definition with_ButlerVersionString (v : string) (r : Router) : Router :=
  {| Handlers := Handlers r; NotificationHandlers := NotificationHandlers r;
     getClient := getClient r; ButlerVersion := ButlerVersion r;
     ButlerVersionString := v |}.

Definition router : Router :=
  with_ButlerVersionString "v15.21.0, built on Apr 1 2021" $
  snd (RegisterNotification "Note.Panic" (fun _ => panic (PanicOther (AnyString "late")))
    (register_all
      [ ("Fail.Rpc", failing (Rpc 42 "boom" (Some [("detail", DString "x")])));
        ("Fail.Net", failing refused_dial);
        ("Fail.Cancelled", failing (WithStack Cancelled));
        ("Fail.Plain", failing (Fundamental "disk full"));
        ("Fail.NaN", failing (Rpc 42 "boom" (Some [("ratio", DValue VNaN)])));
        ("Fail.Stack", failing (Rpc 42 "boom" (Some [("stack", DString "mine")])));
        ("Panic.Error", panicking (PanicError nil_map_write));
        ("Panic.Value", panicking (PanicOther (AnyString "oops")));
        ("Report", reporting) ]
      (NewRouter id))).

(** Further handlers, callbacks and stores for the runs of the second
    part. *)

(** A handler that answers "pong". *)
Definition ping : RequestHandler :=
  fun _ => ret (Some (AnyString "pong"), None).

(** A handler that starts with [rc.ProfileClient(0)]. *)
Definition zero_profile : RequestHandler :=
  fun rc => bind (ProfileClient rc 0) (fun _ => ret (None, None)).

(** An interceptor that journals the method and succeeds. *)
Definition journal : NotificationInterceptor :=
  fun method _ h => (Returned None, method :: h).

(** Two cancel callbacks that journal their name. *)
Definition cancel_abc : CancelFunc := cons "cancelled abc".
Definition cancel_xyz : CancelFunc := cons "cancelled xyz".

(** A connection on which every send fails. *)
Definition broken_conn : jsonrpc2_Conn := {| conn_err := Some refused_dial |}.

(** The context and the store of a call to "Report". *)
Definition report_rc : RequestContext :=
  request_context router background (JsonRPC2Conn conn)
    (fst (NewStateConsumer background (JsonRPC2Conn conn))) (request "Report" 1).

Definition store : Store := fresh_store world.

(** The router with "Ping" and "Profile.Zero" registered as well. *)
Definition router2 : Router :=
  register_all [("Ping", ping); ("Profile.Zero", zero_profile)] router.

(** The router with "Panic.NaN" as well: its handler panics with a
    butlerd error whose data holds a NaN. *)
Definition router3 : Router :=
  register_all
    [("Panic.NaN",
      panicking (PanicError (Rpc 42 "boom" (Some [("ratio", DValue VNaN)]))))]
    router2.

(** A callback on a connection that panics, and one that returns. *)
Definition failing_query : sqlite_Conn -> M Store unit :=
  fun _ => panic (PanicError (Fundamental "SQL logic error")).

Definition counting_query : sqlite_Conn -> M Store bool :=
  fun c => ret (Nat.eqb c 7).

End Daemon.

(** * Properties *)

(** Function types stored in maps are spelled out before rewriting, so
    that lookups in statements and in unfolded code agree. *)
Ltac spell_out :=
  unfold CancelFunc, NotificationInterceptor, RequestHandler,
    NotificationHandler in *.

Ltac run :=
  unfold bind, ret, get, modify, panic, defer, on_heap, on_shared, zoom;
  cbn beta iota zeta; spell_out.

(** ** Cancellation registry *)

Section CancelRegistry.
Context `{L : GoLibs}.

(** C5. For an identifier [id] registered with callback [f], the first
    [Call(id)] returns true, runs [f] once on the callbacks' state and
    removes the entry, leaving everything else as it was; a second
    [Call(id)] returns false and changes nothing; and [Call] on an
    identifier that is not registered returns false and changes nothing. *)
Theorem CancelFuncs_Call_fires_once (id : string) (f : CancelFunc) (s : Shared)
    (Hreg : Funcs s !! id = Some f) :
  let s1 := with_Funcs (delete id (Funcs s)) (with_heap (f (heap s)) s) in
  CancelFuncs_Call id s = (Returned true, s1)
  /\ Funcs s1 !! id = None
  /\ CancelFuncs_Call id s1 = (Returned false, s1)
  /\ (forall (id' : string) (s' : Shared),
        Funcs s' !! id' = None -> CancelFuncs_Call id' s' = (Returned false, s')).
Proof.
  intros s1.
  assert (Hgone : Funcs s1 !! id = None) by apply lookup_delete_eq.
  assert (Hmiss : forall (id' : string) (s' : Shared),
             Funcs s' !! id' = None -> CancelFuncs_Call id' s' = (Returned false, s')).
  { intros id' s' Hnone. unfold CancelFuncs_Call. run. now rewrite Hnone. }
  repeat split; auto.
  unfold CancelFuncs_Call. run. now rewrite Hreg.
Qed.

End CancelRegistry.

(** An entry added under "abc" whose callback journals one line. *)
Lemma CancelFuncs_Call_fires_once_witness :
  let f : CancelFunc := cons "cancelled abc" in
  let s := snd (CancelFuncs_Add "abc" f (NewRouter_shared [] [])) in
  Funcs s !! "abc" = Some f
  /\ (let s1 := with_Funcs (delete "abc" (Funcs s)) (with_heap (f (heap s)) s) in
      CancelFuncs_Call "abc" s = (Returned true, s1)
      /\ Funcs s1 !! "abc" = None
      /\ CancelFuncs_Call "abc" s1 = (Returned false, s1)
      /\ (forall (id' : string) (s' : Shared),
            Funcs s' !! id' = None -> CancelFuncs_Call id' s' = (Returned false, s')))
  /\ heap (snd (CancelFuncs_Call "abc" (snd (CancelFuncs_Call "abc" s))))
     = ["cancelled abc"].
Proof.
  intros f s.
  assert (Hreg : Funcs s !! "abc" = Some f) by apply lookup_insert_eq.
  split; [exact Hreg|]. split.
  - exact (CancelFuncs_Call_fires_once "abc" f s Hreg).
  - destruct (CancelFuncs_Call_fires_once "abc" f s Hreg) as (H1 & _ & H2 & _).
    rewrite H1. cbn [snd]. rewrite H2. reflexivity.
Defined.

(** ** Outbound notifications and their interception *)

Section Notifications.
Context `{L : GoLibs}.

(** [Notify] with an interceptor for the method: only the callbacks'
    state moves. *)
Lemma Notify_with_interceptor (rc : RequestContext) (method : string)
    (params : any) (s : Store) (ni : NotificationInterceptor) :
  interceptor_for s method = Some ni ->
  Notify rc method params s
  = (fst (ni method params (heap (shared s))),
     with_shared (with_heap (snd (ni method params (heap (shared s)))) (shared s)) s).
Proof.
  unfold interceptor_for, Notify. run. intros Hni.
  destruct (notificationInterceptors s) as [tbl|]; [|discriminate].
  rewrite Hni. now destruct (ni method params _).
Qed.

(** [Notify] without one: the connection's [Notify]. *)
Lemma Notify_without_interceptor (rc : RequestContext) (method : string)
    (params : any) (s : Store) :
  interceptor_for s method = None ->
  Notify rc method params s
  = (fst (Conn_Notify (rc_Conn rc) (rc_Ctx rc) method params (shared s)),
     with_shared (snd (Conn_Notify (rc_Conn rc) (rc_Ctx rc) method params (shared s))) s).
Proof.
  unfold interceptor_for, Notify. run. intros Hnone.
  destruct (notificationInterceptors s) as [tbl|].
  - rewrite Hnone. now destruct (Conn_Notify _ _ _ _ _).
  - now destruct (Conn_Notify _ _ _ _ _).
Qed.

(** C9. [Notify(method, params)] on a context that holds an interceptor
    for [method] runs that interceptor on the callbacks' state, hands
    nothing to the connection, and returns what the interceptor returns;
    on a context that holds none (its table may be nil) it is the
    connection's [Notify], which for the dispatcher's connection hands
    exactly this notification to the transport. [InterceptNotification]
    installs the interceptor for its method on this context's table and
    [StopInterceptingNotification] removes it. *)
Theorem Notify_intercepted_or_sent (rc : RequestContext) (method : string)
    (params : any) (s : Store) :
  (forall ni : NotificationInterceptor,
      interceptor_for s method = Some ni ->
      Notify rc method params s
      = (fst (ni method params (heap (shared s))),
         with_shared (with_heap (snd (ni method params (heap (shared s)))) (shared s)) s))
  /\ (interceptor_for s method = None ->
      Notify rc method params s
      = (fst (Conn_Notify (rc_Conn rc) (rc_Ctx rc) method params (shared s)),
         with_shared (snd (Conn_Notify (rc_Conn rc) (rc_Ctx rc) method params (shared s))) s))
  /\ (forall origConn : jsonrpc2_Conn,
      interceptor_for s method = None ->
      rc_Conn rc = JsonRPC2Conn origConn ->
      Notify rc method params s
      = (Returned (conn_err origConn),
         with_shared (with_outbound (outbound (shared s) ++ [OutNotify method params])
                        (shared s)) s))
  /\ (forall ni : NotificationInterceptor,
      interceptor_for (snd (InterceptNotification rc method ni s)) method = Some ni)
  /\ interceptor_for (snd (StopInterceptingNotification rc method s)) method = None.
Proof.
  split; [|split; [|split; [|split]]].
  - intros ni. apply Notify_with_interceptor.
  - apply Notify_without_interceptor.
  - intros origConn Hnone Hconn.
    rewrite (Notify_without_interceptor rc method params s Hnone), Hconn.
    reflexivity.
  - intros ni. unfold interceptor_for, InterceptNotification. run.
    cbn. apply lookup_insert_eq.
  - unfold interceptor_for, StopInterceptingNotification. run.
    destruct (notificationInterceptors s) as [tbl|] eqn:E; cbn.
    + apply lookup_delete_eq.
    + now rewrite E.
Qed.

End Notifications.

(** A context whose table intercepts "Log" with a callback that journals
    the call and fails; "Progress" is not intercepted. *)
Lemma Notify_intercepted_or_sent_witness :
  let origConn := {| conn_err := None |} in
  let consumer := fst (NewStateConsumer true (JsonRPC2Conn origConn)) in
  let rc := request_context (NewRouter id) true (JsonRPC2Conn origConn) consumer
              {| Method := "m"; Params := None; ID := 1%nat; Notif := false |} in
  let ni : NotificationInterceptor :=
    fun method _ h => (Returned (Some (Reference.Fundamental "refused")), method :: h) in
  let s := snd (InterceptNotification rc "Log" ni (fresh_store
              {| w_shared := NewRouter_shared [] []; replies := [] |})) in
  interceptor_for s "Log" = Some ni
  /\ Notify rc "Log" (AnyString "hello") s
     = (Returned (Some (Reference.Fundamental "refused")),
        with_shared (with_heap ["Log"] (shared s)) s)
  /\ interceptor_for s "Progress" = None
  /\ Notify rc "Progress" (AnyString "hello") s
     = (Returned None,
        with_shared (with_outbound [OutNotify "Progress" (AnyString "hello")] (shared s)) s).
Proof.
  intros origConn consumer rc ni s.
  assert (Hlog : interceptor_for s "Log" = Some ni) by reflexivity.
  assert (Hprog : interceptor_for s "Progress" = None) by reflexivity.
  destruct (Notify_intercepted_or_sent rc "Log" (AnyString "hello") s) as (H1 & _).
  destruct (Notify_intercepted_or_sent rc "Progress" (AnyString "hello") s)
    as (_ & _ & H3 & _).
  split; [|split; [|split]].
  - exact Hlog.
  - exact (H1 ni Hlog).
  - exact Hprog.
  - exact (H3 origConn Hprog eq_refl).
Defined.

(** ** Profiles and the connection pool *)

Section Profiles.
Context `{L : GoLibs}.

(** C7. [ProfileClient(0)] panics with the store untouched: no connection
    is taken from the pool and the result does not depend on any lookup.
    For a nonzero identifier whose profile is missing or has an empty API
    key, [ProfileClient] panics, and the pool it leaves is the one where
    the connection it took has been put back. *)
Theorem ProfileClient_fails_released (rc : RequestContext) (s : Store) :
  ProfileClient rc 0 s
  = (Panicked (PanicError (errors_New "profileId must be non-zero")), s)
  /\ (forall (profileID : Z) (conn : sqlite_Conn) (pool : sqlite_Pool),
        profileID <> 0 ->
        Pool_Get (rc_Ctx rc) (DBPool (shared s)) = (conn, pool) ->
        (models_ProfileByID conn profileID = None
         \/ exists profile, models_ProfileByID conn profileID = Some profile
                            /\ Profile_APIKey profile = ""%string) ->
        exists e : error,
          ProfileClient rc profileID s
          = (Panicked (PanicError e),
             with_shared (with_DBPool (Pool_Put conn pool) (shared s)) s)).
Proof.
  split; [reflexivity|].
  intros profileID conn pool Hnz Hget Hbad.
  unfold ProfileClient, DBPool_Get, DBPool_Put.
  destruct (Z.eqb_spec profileID 0) as [|_]; [contradiction|].
  run. rewrite Hget. cbn.
  destruct Hbad as [Hnone | (profile & Hsome & Hkey)].
  - rewrite Hnone. eexists. reflexivity.
  - rewrite Hsome, Hkey. eexists. reflexivity.
Qed.

End Profiles.

(** A pool of connections 7 and 8; profile 5 does not exist and profile 2
    has no API key. Both calls panic and leave both connections in the
    pool. *)
Lemma ProfileClient_fails_released_witness :
  let origConn := {| conn_err := None |} in
  let consumer := fst (NewStateConsumer true (JsonRPC2Conn origConn)) in
  let rc := request_context (NewRouter id) true (JsonRPC2Conn origConn) consumer
              {| Method := "m"; Params := None; ID := 1%nat; Notif := false |} in
  let s := fresh_store {| w_shared := NewRouter_shared [7; 8]%nat []; replies := [] |} in
  (exists e, ProfileClient rc 5 s
     = (Panicked (PanicError e),
        with_shared (with_DBPool [8; 7]%nat (shared s)) s))
  /\ (exists e, ProfileClient rc 2 s
     = (Panicked (PanicError e),
        with_shared (with_DBPool [8; 7]%nat (shared s)) s))
  /\ ProfileClient rc 0 s
     = (Panicked (PanicError (Reference.Fundamental "profileId must be non-zero")), s).
Proof.
  intros origConn consumer rc s.
  destruct (ProfileClient_fails_released rc s) as (H0 & Hrel).
  split; [|split].
  - apply (Hrel 5 7%nat [8]%nat); [discriminate | reflexivity | left; reflexivity].
  - apply (Hrel 2 7%nat [8]%nat); [discriminate | reflexivity |].
    right. eexists. split; reflexivity.
  - exact H0.
Defined.

(** ** Progress bridge *)

Section ProgressBridge.
Context `{L : GoLibs}.

(** C8. A request handler runs on a context whose consumer carries the
    bridge. There a progress signal [alpha] does nothing when the context
    has no tracker; with a tracker [t] it stores [SetProgress(alpha)] in
    the tracker and makes one [Notify("Progress", ...)] whose payload is
    [alpha] with the ETA in seconds and the throughput read from the
    updated tracker. On the dispatcher's connection with no interceptor
    for "Progress" this hands exactly one notification to the transport. *)
Theorem progress_signal_bridged (r : Router) (req : jsonrpc2_Request)
    (rc : RequestContext) (h : RequestHandler) (alpha : float64) (s : Store)
    (Hreq : Notif req = false) (Hh : Handlers r !! Method req = Some h) :
  let rc' := with_rc_Consumer (progress_hooks rc) rc in
  invoke r req rc = h rc'
  /\ (tracker s = None ->
      Consumer_Progress (rc_Consumer rc') alpha s = (Returned tt, s))
  /\ (forall t : progress_Tracker,
      tracker s = Some t ->
      let t' := Tracker_SetProgress alpha t in
      let notif :=
        AnyProgressNotification
          {| Progress := alpha;
             ETA := Duration_Seconds (Tracker_ETA t');
             BPS := Tracker_BPS t' |} in
      let sent := Notify rc' "Progress" notif (with_tracker (Some t') s) in
      Consumer_Progress (rc_Consumer rc') alpha s
      = (match fst sent with
         | Returned _ => Returned tt
         | Panicked p => Panicked p
         end, snd sent)
      /\ (forall origConn : jsonrpc2_Conn,
            rc_Conn rc = JsonRPC2Conn origConn ->
            interceptor_for s "Progress" = None ->
            Consumer_Progress (rc_Consumer rc') alpha s
            = (Returned tt,
               with_shared
                 (with_outbound (outbound (shared s) ++ [OutNotify "Progress" notif])
                    (shared s))
                 (with_tracker (Some t') s)))).
Proof.
  intros rc'.
  split; [|split].
  - unfold invoke. spell_out. now rewrite Hreq, Hh.
  - intros Hnone. unfold Consumer_Progress.
    cbn [rc' rc_Consumer with_rc_Consumer progress_hooks OnProgress].
    unfold bind at 1. unfold get at 1. cbn beta iota. now rewrite Hnone.
  - intros t Ht t' notif sent.
    assert (Hsig : Consumer_Progress (rc_Consumer rc') alpha s
                   = (match fst sent with
                      | Returned _ => Returned tt
                      | Panicked p => Panicked p
                      end, snd sent)).
    { unfold Consumer_Progress.
      cbn [rc' rc_Consumer with_rc_Consumer progress_hooks OnProgress].
      unfold bind at 1. unfold get at 1. cbn beta iota. rewrite Ht.
      unfold bind at 1. unfold modify at 1. cbn beta iota zeta.
      unfold bind at 1.
      change (Notify rc) with (Notify rc'). fold t'. fold notif. fold sent.
      destruct sent as [[o|p] s']; reflexivity. }
    split; [exact Hsig|].
    intros origConn Hconn Hnone.
    rewrite Hsig. unfold sent.
    rewrite (Notify_without_interceptor rc' "Progress" notif
               (with_tracker (Some t') s) Hnone).
    cbn [rc' rc_Conn rc_Ctx with_rc_Consumer]. rewrite Hconn. reflexivity.
Qed.

End ProgressBridge.

(** ** Dispatch *)

Section DispatchProperties.
Context `{L : GoLibs}.

(** The containment always returns: a panic of the body becomes its
    error result. *)
Lemma recovering_returns (body : M Store (option any * option error)) (s : Store) :
  exists x, recovering body s = (Returned x, snd (body s)).
Proof.
  unfold recovering. destruct (body s) as [[x|[e|v]] s']; eauto.
Qed.

(** The error reply is one [ReplyWithError] with the classified code and
    message and the encoded data. *)
Lemma reply_error_sends (r : Router) (origConn : jsonrpc2_Conn)
    (req : jsonrpc2_Request) (err : error) (w : World) :
  reply_error r origConn req err w
  = (Returned tt,
     with_replies
       (replies w ++
        [SentError (ID req)
           {| Code := fst (fst (classify err));
              Message := snd (fst (classify err));
              Data := json_Marshal (error_data r err (snd (classify err))) |}]) w).
Proof.
  unfold reply_error. destruct (classify err) as [[code message] data].
  reflexivity.
Qed.

(** Dispatch once the consumer is built and the contained call has
    yielded [(res, err)]. *)
Lemma Dispatch_after_call (r : Router) (ctx : context_Context)
    (origConn : jsonrpc2_Conn) (req : jsonrpc2_Request) (w : World)
    (consumer : Consumer) (res : option any) (err : option error) (st : Store) :
  NewStateConsumer ctx (JsonRPC2Conn origConn) = (consumer, None) ->
  recovering
    (invoke r req (request_context r ctx (JsonRPC2Conn origConn) consumer req))
    (fresh_store w) = (Returned (res, err), st) ->
  Dispatch r ctx origConn req w
  = let w1 := with_w_shared (shared st) w in
    if Notif req then (Returned tt, w1)
    else
      match err with
      | None =>
          let w2 := with_replies (replies w1 ++ [SentReply (ID req) res]) w1 in
          match conn_err origConn with
          | Some e =>
              (Returned tt,
               with_w_shared
                 (with_consumer_log
                    (consumer_log (w_shared w2)
                     ++ [("error"%string, ("Error while replying: " ++ error_Error e)%string)])
                    (w_shared w2)) w2)
          | None => (Returned tt, w2)
          end
      | Some e => reply_error r origConn req e w1
      end.
Proof.
  intros Hcons Hrun. unfold Dispatch. rewrite Hcons.
  unfold in_call. unfold bind at 1. unfold zoom at 1. rewrite Hrun.
  cbn beta iota zeta.
  destruct (Notif req); [reflexivity|].
  destruct err as [e|]; [reflexivity|].
  unfold bind, jsonrpc2_Reply. destruct (conn_err origConn); reflexivity.
Qed.

(** The store of a call that did nothing is the world it started from. *)
Lemma with_w_shared_fresh (w : World) :
  with_w_shared (shared (fresh_store w)) w = w.
Proof. now destruct w. Qed.

(** C1. When the contained call of a registered request handler yields
    the failure [err], Dispatch returns after sending one error reply
    whose code and message follow the first rule that applies: those of
    the failure itself when it is a butlerd error (with its data as the
    starting data); else the network-disconnected code and its text when
    it is a network error; else the operation-cancelled code and its text
    when its cause is the cancellation sentinel; else the internal-error
    code with the failure's [Error()] as message. *)
Theorem Dispatch_classifies_failure (r : Router) (ctx : context_Context)
    (origConn : jsonrpc2_Conn) (req : jsonrpc2_Request) (w : World)
    (consumer : Consumer) (h : RequestHandler)
    (res : option any) (err : error) (st : Store)
    (Hreq : Notif req = false)
    (Hcons : NewStateConsumer ctx (JsonRPC2Conn origConn) = (consumer, None))
    (Hh : Handlers r !! Method req = Some h)
    (Hrun : recovering
              (h (with_rc_Consumer
                    (progress_hooks (request_context r ctx (JsonRPC2Conn origConn) consumer req))
                    (request_context r ctx (JsonRPC2Conn origConn) consumer req)))
              (fresh_store w) = (Returned (res, Some err), st)) :
  exists (code : Z) (message : string) (data : option (gmap string any)),
    Dispatch r ctx origConn req w
    = (Returned tt,
       with_replies
         (replies w ++
          [SentError (ID req)
             {| Code := code; Message := message;
                Data := json_Marshal (error_data r err data) |}])
         (with_w_shared (shared st) w))
    /\ (forall ee : ButlerdError,
          AsButlerdError err = Some ee ->
          code = RpcErrorCode ee /\ message = RpcErrorMessage ee
          /\ data = RpcErrorData ee)
    /\ (AsButlerdError err = None ->
        neterr_IsNetworkError err = true ->
        code = CodeNetworkDisconnected
        /\ message = Code_Error CodeNetworkDisconnected /\ data = None)
    /\ (AsButlerdError err = None ->
        neterr_IsNetworkError err = false ->
        error_eqb (errors_Cause err) werrors_ErrCancelled = true ->
        code = CodeOperationCancelled
        /\ message = Code_Error CodeOperationCancelled /\ data = None)
    /\ (AsButlerdError err = None ->
        neterr_IsNetworkError err = false ->
        error_eqb (errors_Cause err) werrors_ErrCancelled = false ->
        code = jsonrpc2_CodeInternalError /\ message = error_Error err
        /\ data = None).
Proof.
  exists (fst (fst (classify err))), (snd (fst (classify err))), (snd (classify err)).
  split.
  - rewrite (Dispatch_after_call r ctx origConn req w consumer res (Some err) st Hcons).
    + cbn zeta. rewrite Hreq, reply_error_sends. reflexivity.
    + unfold invoke. spell_out. rewrite Hreq, Hh. exact Hrun.
  - unfold classify.
    destruct (AsButlerdError err) as [ee|];
      [|destruct (neterr_IsNetworkError err);
        [|destruct (error_eqb (errors_Cause err) werrors_ErrCancelled)]];
      cbn; repeat split; intros; try discriminate; try congruence; auto.
Qed.

(** The two keys Dispatch sets are in the data, and every other key
    reads as in the failure's own data. *)
Lemma error_data_lookup (r : Router) (err : error) (data : option (gmap string any)) :
  error_data r err data !! "stack" = Some (AnyString (fmt_plus_v err))
  /\ error_data r err data !! "butlerVersion"
     = Some (AnyString (ButlerVersionString r))
  /\ (forall k : string,
        k <> "stack"%string -> k <> "butlerVersion"%string ->
        error_data r err data !! k = default ∅ data !! k).
Proof.
  unfold error_data. split; [|split].
  - rewrite lookup_insert_ne by discriminate. apply lookup_insert_eq.
  - apply lookup_insert_eq.
  - intros k Hs Hv. rewrite !lookup_insert_ne by congruence.
    now destruct data.
Qed.

(** The data Dispatch builds for a failure, spelled out from the data
    the failure itself exposes. *)
Lemma error_data_of_failure (r : Router) (err : error) :
  error_data r err (snd (classify err))
  = <["butlerVersion"%string := AnyString (ButlerVersionString r)]>
      (<["stack"%string := AnyString (fmt_plus_v err)]>
         (default ∅ (AsButlerdError err ≫= RpcErrorData))).
Proof.
  unfold error_data, classify. destruct (AsButlerdError err) as [ee|]; cbn.
  - now destruct (RpcErrorData ee).
  - destruct (neterr_IsNetworkError err);
      [|destruct (error_eqb (errors_Cause err) werrors_ErrCancelled)];
      reflexivity.
Qed.

(** C2, as the code has it. When a registered request handler panics,
    Dispatch returns after sending one error reply. For a panic with an
    error [e] the failure is [errors.WithStack(e)]; for a panic with any
    other value [v] it is [errors.Errorf("panic: %v", v)], whose message
    is "panic: " followed by the %v rendering of [v], and which is the
    reply's message under the internal-error code unless the classifier
    takes the failure for a butlerd, network or cancellation error. The
    data given to the JSON encoder is the data this failure exposes, if
    any, with the daemon's version under "butlerVersion" and, under
    "stack", the %+v rendering of the failure, which for an error panic
    starts with the %+v rendering of [e]. The reply carries the encoding
    of that data, and no data when the encoder fails. Stated for
    pkg/errors, where the %+v of a [WithStack] is the %+v of the wrapped
    error followed by a stack trace, and the [Error()] of an [Errorf] is
    its formatted text. *)
Theorem Dispatch_contains_panic (r : Router) (ctx : context_Context)
    (origConn : jsonrpc2_Conn) (req : jsonrpc2_Request) (w : World)
    (consumer : Consumer) (h : RequestHandler) (p : panic_value) (st : Store)
    (Hstack : forall e : error,
        exists trace : string,
          fmt_plus_v (errors_WithStack e) = (fmt_plus_v e ++ trace)%string)
    (Hmsg : forall msg : string, error_Error (errors_Errorf msg) = msg)
    (Hreq : Notif req = false)
    (Hcons : NewStateConsumer ctx (JsonRPC2Conn origConn) = (consumer, None))
    (Hh : Handlers r !! Method req = Some h)
    (Hpanic : h (with_rc_Consumer
                   (progress_hooks (request_context r ctx (JsonRPC2Conn origConn) consumer req))
                   (request_context r ctx (JsonRPC2Conn origConn) consumer req))
                (fresh_store w) = (Panicked p, st)) :
  exists (err : error) (code : Z) (message : string) (data : gmap string any),
    Dispatch r ctx origConn req w
    = (Returned tt,
       with_replies
         (replies w ++
          [SentError (ID req)
             {| Code := code; Message := message; Data := json_Marshal data |}])
         (with_w_shared (shared st) w))
    /\ data
       = <["butlerVersion"%string := AnyString (ButlerVersionString r)]>
           (<["stack"%string := AnyString (fmt_plus_v err)]>
              (default ∅ (AsButlerdError err ≫= RpcErrorData)))
    /\ data !! "stack" = Some (AnyString (fmt_plus_v err))
    /\ match p with
       | PanicError e =>
           err = errors_WithStack e
           /\ exists trace : string,
                fmt_plus_v err = (fmt_plus_v e ++ trace)%string
       | PanicOther v =>
           err = errors_Errorf ("panic: " ++ fmt_v v)
           /\ error_Error err = ("panic: " ++ fmt_v v)%string
           /\ (AsButlerdError err = None ->
               neterr_IsNetworkError err = false ->
               error_eqb (errors_Cause err) werrors_ErrCancelled = false ->
               code = jsonrpc2_CodeInternalError
               /\ message = ("panic: " ++ fmt_v v)%string)
       end.
Proof.
  set (err := match p with
              | PanicError e => errors_WithStack e
              | PanicOther v => errors_Errorf ("panic: " ++ fmt_v v)
              end).
  exists err, (fst (fst (classify err))), (snd (fst (classify err))),
    (error_data r err (snd (classify err))).
  split; [|split; [|split]].
  - rewrite (Dispatch_after_call r ctx origConn req w consumer None (Some err) st Hcons).
    + cbn zeta. rewrite Hreq, reply_error_sends. reflexivity.
    + unfold invoke. spell_out. rewrite Hreq, Hh.
      unfold recovering. rewrite Hpanic. now destruct p.
  - apply error_data_of_failure.
  - apply error_data_lookup.
  - destruct p as [e|v]; subst err.
    + split; [reflexivity|]. apply Hstack.
    + split; [reflexivity|]. split; [apply Hmsg|].
      intros Hb Hn Hc. unfold classify. rewrite Hb, Hn, Hc. cbn.
      split; [reflexivity|]. apply Hmsg.
Qed.

(** C3, as the code has it. Every error reply Dispatch sends answers a
    request whose contained call yielded a failure [err], and carries the
    encoding of this data, or no data when the encoder fails: the data
    [err] itself exposes, if any, with the %+v rendering of [err] written
    under "stack" and the daemon's version string under "butlerVersion".
    So the data given to the encoder holds these two entries and reads
    under every other key as the failure's own data does. *)
Theorem Dispatch_error_reply_data (r : Router) (ctx : context_Context)
    (origConn : jsonrpc2_Conn) (req : jsonrpc2_Request) (w w' : World)
    (o : Outcome unit) (id : jsonrpc2_ID) (e : jsonrpc2_Error)
    (Hrun : Dispatch r ctx origConn req w = (o, w'))
    (Hsent : replies w' = replies w ++ [SentError id e]) :
  exists (consumer : Consumer) (res : option any) (err : error) (st : Store)
         (m : gmap string any),
    NewStateConsumer ctx (JsonRPC2Conn origConn) = (consumer, None)
    /\ Notif req = false
    /\ recovering
         (invoke r req (request_context r ctx (JsonRPC2Conn origConn) consumer req))
         (fresh_store w) = (Returned (res, Some err), st)
    /\ id = ID req
    /\ m = <["butlerVersion"%string := AnyString (ButlerVersionString r)]>
             (<["stack"%string := AnyString (fmt_plus_v err)]>
                (default ∅ (AsButlerdError err ≫= RpcErrorData)))
    /\ Data e = json_Marshal m
    /\ m !! "stack" = Some (AnyString (fmt_plus_v err))
    /\ m !! "butlerVersion" = Some (AnyString (ButlerVersionString r))
    /\ (forall k : string,
          k <> "stack"%string -> k <> "butlerVersion"%string ->
          m !! k = default ∅ (AsButlerdError err ≫= RpcErrorData) !! k).
Proof.
  assert (Hnone : forall l : list Reply, l <> l ++ [SentError id e]).
  { intros l Heq. apply (f_equal length) in Heq. rewrite length_app in Heq.
    cbn in Heq. lia. }
  destruct (NewStateConsumer ctx (JsonRPC2Conn origConn)) as [consumer cErr] eqn:Hcons.
  destruct cErr as [cErr|].
  { unfold Dispatch in Hrun. rewrite Hcons in Hrun. inversion Hrun; subst.
    now apply Hnone in Hsent. }
  destruct (recovering_returns
              (invoke r req (request_context r ctx (JsonRPC2Conn origConn) consumer req))
              (fresh_store w)) as [[res err] Hrec].
  rewrite (Dispatch_after_call r ctx origConn req w consumer res err _ Hcons Hrec) in Hrun.
  cbn zeta in Hrun. destruct (Notif req) eqn:Hnotif.
  { inversion Hrun; subst. now apply Hnone in Hsent. }
  destruct err as [err|].
  - rewrite reply_error_sends in Hrun. inversion Hrun; subst. cbn in Hsent.
    apply app_inv_head in Hsent. inversion Hsent; subst.
    exists consumer, res, err. eexists. exists (error_data r err (snd (classify err))).
    split; [reflexivity|]. split; [reflexivity|]. split; [exact Hrec|].
    split; [reflexivity|]. split; [apply error_data_of_failure|].
    split; [reflexivity|].
    destruct (error_data_lookup r err (snd (classify err))) as (Hs & Hv & Hk).
    split; [exact Hs|]. split; [exact Hv|].
    intros k Hks Hkv. rewrite error_data_of_failure.
    now rewrite !lookup_insert_ne by congruence.
  - destruct (conn_err origConn); inversion Hrun; subst; cbn in Hsent;
      apply app_inv_head in Hsent; discriminate.
Qed.

(** C4. A request whose method has no handler gets one error reply with
    the method-not-found code and the message "Method '<name>' not
    found"; nothing else changes, whatever the tables hold. Stated for an
    [RpcError] that answers [AsButlerdError] with its own code and
    message. *)
Theorem Dispatch_method_not_found (r : Router) (ctx : context_Context)
    (origConn : jsonrpc2_Conn) (req : jsonrpc2_Request) (w : World)
    (consumer : Consumer)
    (Hrpc : forall (c : Z) (m : string),
        exists ee : ButlerdError,
          AsButlerdError (RpcError c m) = Some ee
          /\ RpcErrorCode ee = c /\ RpcErrorMessage ee = m)
    (Hreq : Notif req = false)
    (Hcons : NewStateConsumer ctx (JsonRPC2Conn origConn) = (consumer, None))
    (Hh : Handlers r !! Method req = None) :
  exists rawData : option json_RawMessage,
    Dispatch r ctx origConn req w
    = (Returned tt,
       with_replies
         (replies w ++
          [SentError (ID req)
             {| Code := jsonrpc2_CodeMethodNotFound;
                Message := "Method '" ++ Method req ++ "' not found";
                Data := rawData |}]) w).
Proof.
  set (err := RpcError jsonrpc2_CodeMethodNotFound
                ("Method '" ++ Method req ++ "' not found")).
  exists (json_Marshal (error_data r err (snd (classify err)))).
  rewrite (Dispatch_after_call r ctx origConn req w consumer None (Some err)
             (fresh_store w) Hcons).
  - cbn zeta. rewrite Hreq, reply_error_sends, with_w_shared_fresh.
    unfold classify.
    destruct (Hrpc jsonrpc2_CodeMethodNotFound
                ("Method '" ++ Method req ++ "' not found")%string)
      as (ee & Hee & Hcode & Hmessage).
    fold err in Hee. rewrite Hee. cbn. now rewrite Hcode, Hmessage.
  - unfold invoke. spell_out. now rewrite Hreq, Hh.
Qed.

(** C6. Dispatch of a notification returns and leaves the replies as they
    were, whether its handler returns or panics; when the method has no
    notification handler the whole world is left as it was. *)
Theorem Dispatch_notification_no_reply (r : Router) (ctx : context_Context)
    (origConn : jsonrpc2_Conn) (req : jsonrpc2_Request) (w : World)
    (Hnotif : Notif req = true) :
  exists w' : World,
    Dispatch r ctx origConn req w = (Returned tt, w')
    /\ replies w' = replies w
    /\ (NotificationHandlers r !! Method req = None -> w' = w).
Proof.
  destruct (NewStateConsumer ctx (JsonRPC2Conn origConn)) as [consumer cErr] eqn:Hcons.
  destruct cErr as [cErr|].
  { exists w. unfold Dispatch. rewrite Hcons. auto. }
  destruct (recovering_returns
              (invoke r req (request_context r ctx (JsonRPC2Conn origConn) consumer req))
              (fresh_store w)) as [[res err] Hrec].
  eexists. split; [|split].
  - rewrite (Dispatch_after_call r ctx origConn req w consumer res err _ Hcons Hrec).
    cbn zeta. rewrite Hnotif. reflexivity.
  - reflexivity.
  - intros Hnone. unfold invoke. spell_out. rewrite Hnotif, Hnone.
    apply with_w_shared_fresh.
Qed.

(** C10. When [NewStateConsumer] fails, Dispatch returns with the world
    as it was, for a request as for a notification and whatever the
    handler tables hold: nothing is looked up, run or sent. *)
Theorem Dispatch_consumer_failure (r : Router) (ctx : context_Context)
    (origConn : jsonrpc2_Conn) (req : jsonrpc2_Request) (w : World)
    (cErr : error)
    (Hfail : snd (NewStateConsumer ctx (JsonRPC2Conn origConn)) = Some cErr) :
  Dispatch r ctx origConn req w = (Returned tt, w).
Proof.
  unfold Dispatch.
  destruct (NewStateConsumer ctx (JsonRPC2Conn origConn)) as [consumer c].
  cbn in Hfail. now subst c.
Qed.

End DispatchProperties.

(** ** The reference daemon at work *)

Section DaemonRuns.
Import Reference Daemon.
Local Open Scope string_scope.

(** The handler of "Fail.Net" returns a wrapped [*net.OpError]: the reply
    has the network-disconnected code. *)
Lemma Dispatch_classifies_failure_witness :
  exists raw : option json_RawMessage,
    Dispatch router background conn (request "Fail.Net" 1) world
    = (Returned tt,
       with_replies
         [SentError 1%nat
            {| Code := 9000; Message := "butlerd error 9000"; Data := raw |}]
         world).
Proof.
  destruct (Dispatch_classifies_failure router background conn (request "Fail.Net" 1) world
              (fst (NewStateConsumer background (JsonRPC2Conn conn)))
              (failing refused_dial)
              None refused_dial
              (fresh_store world) ltac:(reflexivity) ltac:(reflexivity) ltac:(reflexivity) ltac:(reflexivity))
    as (code & message & data & Hd & _ & Hnet & _).
  destruct (Hnet ltac:(reflexivity) ltac:(reflexivity)) as (Hc & Hm & _). subst code message.
  eexists. exact Hd.
Defined.

Lemma ref_WithStack_plus_v (e : ref_error) :
  exists trace : string,
    fmt_plus_v (errors_WithStack e) = fmt_plus_v e ++ trace.
Proof. exists ref_trace. reflexivity. Defined.

Lemma ref_Errorf_Error (msg : string) : error_Error (errors_Errorf msg) = msg.
Proof. reflexivity. Defined.

(** The handler of "Panic.Value" panics with the string "oops", that of
    "Panic.Error" with an error: both calls end in an error reply. *)
Lemma Dispatch_contains_panic_witness :
  (exists raw : option json_RawMessage,
      Dispatch router background conn (request "Panic.Value" 1) world
      = (Returned tt,
         with_replies
           [SentError 1%nat
              {| Code := -32603; Message := "panic: oops"; Data := raw |}]
           world))
  /\ (exists (code : Z) (message : string) (data : gmap string any) (trace : string),
        Dispatch router background conn (request "Panic.Error" 2) world
        = (Returned tt,
           with_replies
             [SentError 2%nat
                {| Code := code; Message := message; Data := json_Marshal data |}]
             world)
        /\ data !! "stack"
           = Some (AnyString (("assignment to entry in nil map" ++ ref_trace) ++ trace))).
Proof.
  split.
  - destruct (Dispatch_contains_panic router background conn (request "Panic.Value" 1) world
                (fst (NewStateConsumer background (JsonRPC2Conn conn)))
                (panicking (PanicOther (AnyString "oops")))
                (PanicOther (AnyString "oops")) (fresh_store world)
                ref_WithStack_plus_v ref_Errorf_Error
                ltac:(reflexivity) ltac:(reflexivity) ltac:(reflexivity) ltac:(reflexivity))
      as (err & code & message & data & Hd & _ & _ & Herr & _ & Hcls).
    subst err. destruct (Hcls ltac:(reflexivity) ltac:(reflexivity) ltac:(reflexivity)) as (Hc & Hm).
    subst code message. eexists. exact Hd.
  - destruct (Dispatch_contains_panic router background conn (request "Panic.Error" 2) world
                (fst (NewStateConsumer background (JsonRPC2Conn conn)))
                (panicking (PanicError nil_map_write))
                (PanicError nil_map_write)
                (fresh_store world)
                ref_WithStack_plus_v ref_Errorf_Error
                ltac:(reflexivity) ltac:(reflexivity) ltac:(reflexivity) ltac:(reflexivity))
      as (err & code & message & data & Hd & _ & Hs & Herr & trace & Htrace).
    exists code, message, data, trace. split; [exact Hd|].
    rewrite Hs, Htrace. reflexivity.
Defined.

(** C2 as stated fails on "Panic.NaN": its handler panics with a butlerd
    error whose data holds a NaN. The panic is contained and answered,
    but the encoder refuses the data and the error reply goes out with no
    data, so with no "stack" that could contain the error's description. *)
Lemma Dispatch_contains_panic_counterexample :
  Handlers router3 !! "Panic.NaN"
  = Some (panicking (PanicError (Rpc 42 "boom" (Some [("ratio", DValue VNaN)]))))
  /\ Dispatch router3 background conn (request "Panic.NaN" 9) world
     = (Returned tt,
        with_replies
          [SentError 9%nat {| Code := 42; Message := "boom"; Data := None |}]
          world).
Proof. split; reflexivity. Qed.

(** "Fail.Rpc" fails with a butlerd error that brings its own "detail". *)
Lemma Dispatch_error_reply_data_witness :
  exists (consumer : Consumer) (res : option any) (err : error) (st : Store)
         (m : gmap string any),
    NewStateConsumer background (JsonRPC2Conn conn) = (consumer, None)
    /\ Notif (request "Fail.Rpc" 1) = false
    /\ recovering
         (invoke router (request "Fail.Rpc" 1)
            (request_context router background (JsonRPC2Conn conn) consumer
               (request "Fail.Rpc" 1)))
         (fresh_store world) = (Returned (res, Some err), st)
    /\ ID (request "Fail.Rpc" 1) = ID (request "Fail.Rpc" 1)
    /\ m = <["butlerVersion" := AnyString "v15.21.0, built on Apr 1 2021"]>
             (<["stack" := AnyString (fmt_plus_v err)]>
                (default ∅ (AsButlerdError err ≫= RpcErrorData)))
    /\ Data boom_reply = json_Marshal m
    /\ m !! "stack" = Some (AnyString (fmt_plus_v err))
    /\ m !! "butlerVersion" = Some (AnyString "v15.21.0, built on Apr 1 2021")
    /\ (forall k : string,
          k <> "stack" -> k <> "butlerVersion" ->
          m !! k = default ∅ (AsButlerdError err ≫= RpcErrorData) !! k).
Proof.
  apply (Dispatch_error_reply_data (T := RefTypes) (L := RefLibs)
           router background conn (request "Fail.Rpc" 1) world
           (with_replies [SentError (ID (request "Fail.Rpc" 1)) boom_reply] world)
           (Returned tt) (ID (request "Fail.Rpc" 1)) boom_reply); reflexivity.
Defined.

(** C3 as stated fails on two inputs. "Fail.NaN" fails with a butlerd
    error whose data holds a NaN: the encoder refuses the map and the
    error reply goes out with no data, so with neither "stack" nor
    "butlerVersion". "Fail.Stack" fails with a butlerd error whose data
    has its own "stack" entry: the reply carries the rendering of the
    failure under "stack" and the caller's value is gone. *)
Lemma Dispatch_error_reply_data_counterexample :
  Dispatch router background conn (request "Fail.NaN" 1) world
  = (Returned tt,
     with_replies
       [SentError 1%nat {| Code := 42; Message := "boom"; Data := None |}]
       world)
  /\ (snd (classify (Rpc 42 "boom" (Some [("stack", DString "mine")])))
        ≫= (.!! "stack")) = Some (AnyString "mine")
  /\ Dispatch router background conn (request "Fail.Stack" 2) world
     = (Returned tt,
        with_replies
          [SentError 2%nat
             {| Code := 42; Message := "boom";
                Data := Some [("stack", DString "JSON-RPC Error: boom");
                              ("butlerVersion", DString "v15.21.0, built on Apr 1 2021")] |}]
          world).
Proof. split; [|split]; reflexivity. Qed.

(** No handler is registered for "Nope". *)
Lemma Dispatch_method_not_found_witness :
  exists rawData : option json_RawMessage,
    Dispatch router background conn (request "Nope" 1) world
    = (Returned tt,
       with_replies
         [SentError 1%nat
            {| Code := -32601; Message := "Method 'Nope' not found";
               Data := rawData |}]
         world).
Proof.
  apply (Dispatch_method_not_found router background conn (request "Nope" 1) world
           (fst (NewStateConsumer background (JsonRPC2Conn conn)))).
  - intros c m. eexists. split; [reflexivity|]. split; reflexivity.
  - reflexivity.
  - reflexivity.
  - reflexivity.
Defined.

(** The notification handler of "Note.Panic" panics. *)
Lemma Dispatch_notification_no_reply_witness :
  exists w' : World,
    Dispatch router background conn (notification "Note.Panic") world = (Returned tt, w')
    /\ replies w' = []
    /\ (NotificationHandlers router !! "Note.Panic" = None -> w' = world).
Proof.
  apply (Dispatch_notification_no_reply router background conn
           (notification "Note.Panic") world).
  reflexivity.
Defined.

(** A nil context: the consumer cannot be built, and the request to the
    registered method "Report" gets no reply. *)
Lemma Dispatch_consumer_failure_witness :
  Dispatch router no_context conn (request "Report" 1) world = (Returned tt, world).
Proof.
  apply (Dispatch_consumer_failure router no_context conn (request "Report" 1) world
           missing_ctx).
  reflexivity.
Defined.

(** [StartProgress] then a progress signal of one half, on the context
    the handler of "Report" runs on: one "Progress" notification. *)
Lemma progress_signal_bridged_witness :
  let rc := request_context router true (JsonRPC2Conn conn)
              (fst (NewStateConsumer background (JsonRPC2Conn conn))) (request "Report" 1) in
  let rc' := with_rc_Consumer (progress_hooks rc) rc in
  let s := snd (StartProgress rc' (fresh_store world)) in
  invoke router (request "Report" 1) rc = reporting rc'
  /\ Consumer_Progress (rc_Consumer rc') (1 # 2)%Q (fresh_store world)
     = (Returned tt, fresh_store world)
  /\ outbound (shared (snd (Consumer_Progress (rc_Consumer rc') (1 # 2)%Q s)))
     = [OutNotify "Progress"
          (AnyProgressNotification
             {| Progress := (1 # 2)%Q; ETA := 0%Q; BPS := 0%Q |})].
Proof.
  intros rc rc' s.
  destruct (progress_signal_bridged router (request "Report" 1) rc reporting
              (1 # 2)%Q (fresh_store world) ltac:(reflexivity) ltac:(reflexivity)) as (Hinv & Hnone & _).
  destruct (progress_signal_bridged router (request "Report" 1) rc reporting
              (1 # 2)%Q s ltac:(reflexivity) ltac:(reflexivity)) as (_ & _ & Hsome).
  split; [exact Hinv|]. split; [exact (Hnone ltac:(reflexivity))|].
  destruct (Hsome _ ltac:(reflexivity)) as (_ & Hwire).
  exact (f_equal (fun x => outbound (shared (snd x)))
           (Hwire conn ltac:(reflexivity) ltac:(reflexivity))).
Defined.

End DaemonRuns.

(** * Further properties of the router *)

(** ** Method registration *)

Section Registration.
Context `{L : GoLibs}.

(** X1. [Register] of a method that has no request handler returns and
    leaves a router where the method maps to the new handler, every
    other method maps as before and the notification table is as it was.
    [Register] of a method that already has one panics with the text
    "Can't register handler twice for <method>" and the router keeps the
    old handler. *)
Theorem Register_fresh_or_panics (method : string) (rh : RequestHandler)
    (r : Router) :
  (Handlers r !! method = None ->
   exists r' : Router,
     Register method rh r = (Returned tt, r')
     /\ Handlers r' !! method = Some rh
     /\ (forall m : string, m <> method -> Handlers r' !! m = Handlers r !! m)
     /\ NotificationHandlers r' = NotificationHandlers r
     /\ ButlerVersionString r' = ButlerVersionString r)
  /\ (forall old : RequestHandler,
        Handlers r !! method = Some old ->
        Register method rh r
        = (Panicked (PanicOther
             (AnyString ("Can't register handler twice for " ++ method))), r)).
Proof.
  split.
  - intros Hfree. exists (with_Handlers (<[method := rh]> (Handlers r)) r).
    split; [|split; [|split; [|split]]].
    + unfold Register. run. now rewrite Hfree.
    + apply lookup_insert_eq.
    + intros m Hm. cbn. now apply lookup_insert_ne.
    + reflexivity.
    + reflexivity.
  - intros old Hold. unfold Register. run. now rewrite Hold.
Qed.

(** X2. [RegisterNotification] of a method that has no notification
    handler returns and leaves a router where the method maps to the new
    handler, every other method maps as before and the request table is
    as it was; on a method that already has one it panics with the text
    "Can't register handler twice for <method>" and changes nothing. *)
Theorem RegisterNotification_fresh_or_panics (method : string)
    (nh : NotificationHandler) (r : Router) :
  (NotificationHandlers r !! method = None ->
   exists r' : Router,
     RegisterNotification method nh r = (Returned tt, r')
     /\ NotificationHandlers r' !! method = Some nh
     /\ (forall m : string,
           m <> method -> NotificationHandlers r' !! m = NotificationHandlers r !! m)
     /\ Handlers r' = Handlers r)
  /\ (forall old : NotificationHandler,
        NotificationHandlers r !! method = Some old ->
        RegisterNotification method nh r
        = (Panicked (PanicOther
             (AnyString ("Can't register handler twice for " ++ method))), r)).
Proof.
  split.
  - intros Hfree.
    exists (with_NotificationHandlers (<[method := nh]> (NotificationHandlers r)) r).
    split; [|split; [|split]].
    + unfold RegisterNotification. run. now rewrite Hfree.
    + apply lookup_insert_eq.
    + intros m Hm. cbn. now apply lookup_insert_ne.
    + reflexivity.
  - intros old Hold. unfold RegisterNotification. run. now rewrite Hold.
Qed.

End Registration.

(** "Ping" is free on the reference router and taken once registered. *)
Lemma Register_fresh_or_panics_witness :
  (exists r' : Router,
      Register "Ping" Daemon.ping Daemon.router = (Returned tt, r')
      /\ Handlers r' !! "Ping" = Some Daemon.ping
      /\ (forall m : string, m <> "Ping"%string ->
            Handlers r' !! m = Handlers Daemon.router !! m)
      /\ NotificationHandlers r' = NotificationHandlers Daemon.router
      /\ ButlerVersionString r' = ButlerVersionString Daemon.router)
  /\ Register "Ping" Daemon.reporting Daemon.router2
     = (Panicked (PanicOther (AnyString "Can't register handler twice for Ping")),
        Daemon.router2).
Proof.
  split.
  - apply (Register_fresh_or_panics "Ping" Daemon.ping Daemon.router). reflexivity.
  - apply (proj2 (Register_fresh_or_panics "Ping" Daemon.reporting Daemon.router2)
             Daemon.ping).
    reflexivity.
Defined.

(** "Note.Panic" is taken on the reference router, "Note.Log" is free. *)
Lemma RegisterNotification_fresh_or_panics_witness :
  (exists r' : Router,
      RegisterNotification "Note.Log" (fun _ => ret tt) Daemon.router = (Returned tt, r')
      /\ NotificationHandlers r' !! "Note.Log" = Some (fun _ => ret tt)
      /\ (forall m : string, m <> "Note.Log"%string ->
            NotificationHandlers r' !! m = NotificationHandlers Daemon.router !! m)
      /\ Handlers r' = Handlers Daemon.router)
  /\ RegisterNotification "Note.Panic" (fun _ => ret tt) Daemon.router
     = (Panicked (PanicOther (AnyString "Can't register handler twice for Note.Panic")),
        Daemon.router).
Proof.
  split.
  - apply (RegisterNotification_fresh_or_panics "Note.Log" (fun _ => ret tt) Daemon.router).
    reflexivity.
  - apply (proj2 (RegisterNotification_fresh_or_panics "Note.Panic" (fun _ => ret tt)
                    Daemon.router)
             (fun _ => panic (PanicOther (AnyString "late")))).
    reflexivity.
Defined.

(** ** The cancellation registry, entry by entry *)

Section RegistryEntries.
Context `{L : GoLibs}.

Lemma with_Funcs_same (s : Shared) : with_Funcs (Funcs s) s = s.
Proof. now destruct s. Qed.

(** X3. [Add] stores the callback under its identifier without running
    it and without touching any other entry, and a second [Add] under the
    same identifier replaces the first. [Remove] deletes the entry
    without running the callback and without touching any other entry, so
    that a later [Call] finds nothing; [Remove] of an identifier that is
    not registered changes nothing. *)
Theorem CancelFuncs_Add_Remove (id : string) (f g : CancelFunc) (s : Shared) :
  let added := snd (CancelFuncs_Add id f s) in
  let removed := snd (CancelFuncs_Remove id added) in
  (Funcs added !! id = Some f /\ heap added = heap s
   /\ forall id' : string, id' <> id -> Funcs added !! id' = Funcs s !! id')
  /\ snd (CancelFuncs_Add id g added) = snd (CancelFuncs_Add id g s)
  /\ (Funcs removed !! id = None /\ heap removed = heap s
      /\ forall id' : string, id' <> id -> Funcs removed !! id' = Funcs s !! id')
  /\ CancelFuncs_Call id removed = (Returned false, removed)
  /\ (Funcs s !! id = None -> snd (CancelFuncs_Remove id s) = s).
Proof.
  cbn zeta. unfold CancelFuncs_Add, CancelFuncs_Remove, CancelFuncs_Call. run. cbn.
  split; [|split; [|split; [|split]]].
  - split; [apply lookup_insert_eq|]. split; [reflexivity|].
    intros id' Hne. now apply lookup_insert_ne.
  - unfold with_Funcs. cbn. now rewrite insert_insert_eq.
  - split; [apply lookup_delete_eq|]. split; [reflexivity|].
    intros id' Hne. rewrite lookup_delete_ne by congruence.
    now apply lookup_insert_ne.
  - now rewrite lookup_delete_eq.
  - intros Hnone. rewrite delete_id by exact Hnone. apply with_Funcs_same.
Qed.

(** X4. [Call(id)] touches no entry but that of [id]: every other
    identifier maps as before, and the pool, the outbound messages and
    the log are as they were. So with two callbacks registered under
    different identifiers, calling one and then the other runs each
    once, the first before the second, and both calls return true. *)
Theorem CancelFuncs_Call_other_entries (id id' : string) (s : Shared)
    (Hne : id <> id') :
  let s1 := snd (CancelFuncs_Call id s) in
  Funcs s1 !! id' = Funcs s !! id'
  /\ DBPool s1 = DBPool s /\ outbound s1 = outbound s
  /\ consumer_log s1 = consumer_log s
  /\ (forall f g : CancelFunc,
        Funcs s !! id = Some f -> Funcs s !! id' = Some g ->
        fst (CancelFuncs_Call id s) = Returned true
        /\ fst (CancelFuncs_Call id' s1) = Returned true
        /\ heap (snd (CancelFuncs_Call id' s1)) = g (f (heap s))
        /\ Funcs (snd (CancelFuncs_Call id' s1)) !! id = None
        /\ Funcs (snd (CancelFuncs_Call id' s1)) !! id' = None).
Proof.
  cbn zeta.
  assert (Hcall : forall (i : string) (f : CancelFunc) (t : Shared),
             Funcs t !! i = Some f ->
             CancelFuncs_Call i t
             = (Returned true, with_Funcs (delete i (Funcs t)) (with_heap (f (heap t)) t))).
  { intros i f t Hi. unfold CancelFuncs_Call. run. now rewrite Hi. }
  assert (Hmiss : forall (i : string) (t : Shared),
             Funcs t !! i = None -> CancelFuncs_Call i t = (Returned false, t)).
  { intros i t Hi. unfold CancelFuncs_Call. run. now rewrite Hi. }
  assert (Hframe : Funcs (snd (CancelFuncs_Call id s)) !! id' = Funcs s !! id'
                   /\ DBPool (snd (CancelFuncs_Call id s)) = DBPool s
                   /\ outbound (snd (CancelFuncs_Call id s)) = outbound s
                   /\ consumer_log (snd (CancelFuncs_Call id s)) = consumer_log s).
  { destruct (Funcs s !! id) as [f0|] eqn:Hid.
    - rewrite (Hcall id f0 s Hid). cbn [snd with_Funcs with_heap Funcs DBPool outbound consumer_log].
      split; [now apply lookup_delete_ne|]. auto.
    - rewrite (Hmiss id s Hid). auto. }
  destruct Hframe as (H1 & H2 & H3 & H4).
  split; [exact H1|]. split; [exact H2|]. split; [exact H3|]. split; [exact H4|].
  intros f g Hf Hg.
  assert (Hg1 : Funcs (with_Funcs (delete id (Funcs s)) (with_heap (f (heap s)) s)) !! id'
                = Some g).
  { cbn [with_Funcs Funcs]. rewrite lookup_delete_ne by exact Hne. exact Hg. }
  rewrite (Hcall id f s Hf). cbn [fst snd]. rewrite (Hcall id' g _ Hg1).
  cbn [fst snd with_Funcs with_heap Funcs heap].
  split; [reflexivity|]. split; [reflexivity|]. split; [reflexivity|].
  split.
  - rewrite lookup_delete_ne by congruence. apply lookup_delete_eq.
  - apply lookup_delete_eq.
Qed.

End RegistryEntries.

(** Callbacks under "abc" and "xyz" on a new registry. *)
Lemma CancelFuncs_Add_Remove_witness :
  let s := NewRouter_shared [7; 8]%nat [] in
  let added := snd (CancelFuncs_Add "abc" Daemon.cancel_abc s) in
  let removed := snd (CancelFuncs_Remove "abc" added) in
  Funcs added !! "abc" = Some Daemon.cancel_abc
  /\ Funcs (snd (CancelFuncs_Add "abc" Daemon.cancel_xyz added)) !! "abc"
     = Some Daemon.cancel_xyz
  /\ heap removed = []
  /\ CancelFuncs_Call "abc" removed = (Returned false, removed)
  /\ snd (CancelFuncs_Remove "abc" s) = s.
Proof.
  intros s added removed.
  destruct (CancelFuncs_Add_Remove "abc" Daemon.cancel_abc Daemon.cancel_xyz s)
    as ((Ha & _ & _) & Hover & (_ & Hheap & _) & Hcall & Hnoop).
  split; [exact Ha|]. split; [|split; [exact Hheap|split; [exact Hcall|]]].
  - fold added in Hover. rewrite Hover. apply lookup_insert_eq.
  - apply Hnoop. reflexivity.
Defined.

Lemma CancelFuncs_Call_other_entries_witness :
  let s := snd (CancelFuncs_Add "xyz" Daemon.cancel_xyz
             (snd (CancelFuncs_Add "abc" Daemon.cancel_abc
                (NewRouter_shared [7; 8]%nat [])))) in
  let s1 := snd (CancelFuncs_Call "abc" s) in
  Funcs s1 !! "xyz" = Some Daemon.cancel_xyz
  /\ heap (snd (CancelFuncs_Call "xyz" s1)) = ["cancelled xyz"; "cancelled abc"].
Proof.
  intros s s1.
  destruct (CancelFuncs_Call_other_entries "abc" "xyz" s ltac:(discriminate))
    as (Hother & _ & _ & _ & Hboth).
  split.
  - fold s1 in Hother. rewrite Hother. reflexivity.
  - destruct (Hboth Daemon.cancel_abc Daemon.cancel_xyz ltac:(reflexivity)
                ltac:(reflexivity)) as (_ & _ & Hheap & _).
    exact Hheap.
Defined.

(** ** The request context between calls of its methods *)

Section ContextState.
Context `{L : GoLibs}.

Lemma with_tracker_same (s : Store) : with_tracker (tracker s) s = s.
Proof. now destruct s. Qed.

(** X5. [InterceptNotification] and [StopInterceptingNotification] for
    one method leave the interceptor of every other method, the tracker
    and the shared state as they were; [StopInterceptingNotification] on
    a context whose table is nil changes nothing; and after an interceptor
    is installed and removed again, [Notify] for its method is the
    connection's [Notify]. *)
Theorem interceptors_by_method (rc : RequestContext) (method : string)
    (ni : NotificationInterceptor) (s : Store) :
  let installed := snd (InterceptNotification rc method ni s) in
  let stopped := snd (StopInterceptingNotification rc method s) in
  (forall m : string, m <> method ->
      interceptor_for installed m = interceptor_for s m
      /\ interceptor_for stopped m = interceptor_for s m)
  /\ (tracker installed = tracker s /\ shared installed = shared s)
  /\ (tracker stopped = tracker s /\ shared stopped = shared s)
  /\ (notificationInterceptors s = None -> stopped = s)
  /\ (forall params : any,
        Notify rc method params (snd (StopInterceptingNotification rc method installed))
        = on_shared (Conn_Notify (rc_Conn rc) (rc_Ctx rc) method params)
            (snd (StopInterceptingNotification rc method installed))).
Proof.
  cbn zeta.
  split; [|split; [|split; [|split]]].
  - intros m Hm. unfold interceptor_for, InterceptNotification,
      StopInterceptingNotification. run. split.
    + cbn. destruct (notificationInterceptors s) as [tbl|].
      * now apply lookup_insert_ne.
      * rewrite lookup_insert_ne by congruence. apply lookup_empty.
    + destruct (notificationInterceptors s) as [tbl|] eqn:E; cbn.
      * now apply lookup_delete_ne.
      * now rewrite E.
  - split; reflexivity.
  - unfold StopInterceptingNotification. run.
    destruct (notificationInterceptors s); split; reflexivity.
  - intros Hnil. unfold StopInterceptingNotification. run. now rewrite Hnil.
  - intros params.
    rewrite Notify_without_interceptor.
    + unfold on_shared, zoom.
      now destruct (Conn_Notify (rc_Conn rc) (rc_Ctx rc) method params _).
    + unfold interceptor_for, InterceptNotification,
        StopInterceptingNotification. run. cbn. apply lookup_delete_eq.
Qed.

(** X6. On a context with no tracker [StartProgressWithInitialAndTotal]
    stores a new tracker made silent, set to the initial progress and the
    total, and started; it sends and logs nothing. On a context that is
    already tracking it leaves the tracker as it is and logs one warning.
    [StartProgress] is the start with initial progress 0.0 and total 0,
    [StartProgressWithTotalBytes] the start with initial progress 0.0. *)
Theorem StartProgress_starts_or_warns (rc : RequestContext)
    (initialProgress : float64) (totalBytes : Z) (s : Store) :
  (tracker s = None ->
   StartProgressWithInitialAndTotal rc initialProgress totalBytes s
   = (Returned tt,
      with_tracker
        (Some (Tracker_Start
                 (Tracker_SetTotalBytes totalBytes
                    (Tracker_SetProgress initialProgress
                       (Tracker_SetSilent true progress_NewTracker))))) s))
  /\ (forall t : progress_Tracker,
        tracker s = Some t ->
        StartProgressWithInitialAndTotal rc initialProgress totalBytes s
        = (Returned tt,
           with_shared
             (with_consumer_log
                (consumer_log (shared s)
                 ++ [("warning"%string,
                      "Asked to start progress but already tracking progress!"%string)])
                (shared s)) s))
  /\ StartProgressWithTotalBytes rc totalBytes s
     = StartProgressWithInitialAndTotal rc float64_zero totalBytes s
  /\ StartProgress rc s = StartProgressWithInitialAndTotal rc float64_zero 0 s
  /\ tracker (snd (StartProgress rc (snd (StartProgress rc s))))
     = tracker (snd (StartProgress rc s)).
Proof.
  assert (Hnew : tracker s = None ->
   StartProgressWithInitialAndTotal rc initialProgress totalBytes s
   = (Returned tt,
      with_tracker
        (Some (Tracker_Start
                 (Tracker_SetTotalBytes totalBytes
                    (Tracker_SetProgress initialProgress
                       (Tracker_SetSilent true progress_NewTracker))))) s)).
  { intros Hnone. unfold StartProgressWithInitialAndTotal. run. now rewrite Hnone. }
  split; [exact Hnew|]. split; [|split; [reflexivity|split; [reflexivity|]]].
  - intros t Ht. unfold StartProgressWithInitialAndTotal, Consumer_Warnf. run.
    now rewrite Ht.
  - unfold StartProgress, StartProgressWithTotalBytes,
      StartProgressWithInitialAndTotal, Consumer_Warnf. run.
    destruct (tracker s) as [t|] eqn:E; cbn; now rewrite ?E.
Qed.

(** X7. [EndProgress] on a tracking context drops the tracker and logs
    nothing; on a context with no tracker it changes nothing but the log,
    which gets one warning. A start followed by an end on a context with
    no tracker gives back the store it started from, and after
    [EndProgress] a progress signal on the bridge is ignored. *)
Theorem EndProgress_stops_or_warns (rc : RequestContext) (s : Store) :
  (forall t : progress_Tracker,
      tracker s = Some t -> EndProgress rc s = (Returned tt, with_tracker None s))
  /\ (tracker s = None ->
      EndProgress rc s
      = (Returned tt,
         with_shared
           (with_consumer_log
              (consumer_log (shared s)
               ++ [("warning"%string,
                    "Asked to stop progress but wasn't tracking progress!"%string)])
              (shared s)) s))
  /\ (forall (initialProgress : float64) (totalBytes : Z),
        tracker s = None ->
        snd (EndProgress rc
               (snd (StartProgressWithInitialAndTotal rc initialProgress totalBytes s)))
        = s)
  /\ (forall alpha : float64,
        Consumer_Progress (progress_hooks rc) alpha (snd (EndProgress rc s))
        = (Returned tt, snd (EndProgress rc s))).
Proof.
  split; [|split; [|split]].
  - intros t Ht. unfold EndProgress. run. now rewrite Ht.
  - intros Hnone. unfold EndProgress, Consumer_Warnf. run. now rewrite Hnone.
  - intros initialProgress totalBytes Hnone.
    unfold EndProgress, StartProgressWithInitialAndTotal. run. rewrite Hnone. cbn.
    rewrite <- Hnone. unfold with_tracker. cbn. now destruct s.
  - intros alpha. unfold Consumer_Progress, EndProgress, Consumer_Warnf. cbn [progress_hooks OnProgress].
    run. destruct (tracker s) as [t|] eqn:E; cbn; now rewrite ?E.
Qed.

(** X8. The pause and resume signals of the bridge act on the tracker
    alone: with a tracker they store its paused (resumed) state, without
    one they do nothing; neither sends a notification or touches the
    shared state. The label signal does nothing at all. *)
Theorem pause_resume_label_bridged (rc : RequestContext) (label : string)
    (s : Store) :
  (forall t : progress_Tracker,
      tracker s = Some t ->
      Consumer_PauseProgress (progress_hooks rc) s
      = (Returned tt, with_tracker (Some (Tracker_Pause t)) s)
      /\ Consumer_ResumeProgress (progress_hooks rc) s
         = (Returned tt, with_tracker (Some (Tracker_Resume t)) s))
  /\ (tracker s = None ->
      Consumer_PauseProgress (progress_hooks rc) s = (Returned tt, s)
      /\ Consumer_ResumeProgress (progress_hooks rc) s = (Returned tt, s))
  /\ Consumer_ProgressLabel (progress_hooks rc) label s = (Returned tt, s)
  /\ shared (snd (Consumer_PauseProgress (progress_hooks rc) s)) = shared s
  /\ shared (snd (Consumer_ResumeProgress (progress_hooks rc) s)) = shared s.
Proof.
  unfold Consumer_PauseProgress, Consumer_ResumeProgress, Consumer_ProgressLabel.
  cbn [progress_hooks OnPauseProgress OnResumeProgress OnProgressLabel]. run.
  split; [|split; [|split; [reflexivity|]]].
  - intros t Ht. now rewrite Ht.
  - intros Hnone. now rewrite Hnone.
  - destruct (tracker s); split; reflexivity.
Qed.

(** X9. With a tracker and an interceptor for "Progress" on the context,
    a progress signal stores [SetProgress(alpha)] in the tracker and runs
    the interceptor on the payload; nothing is handed to the connection.
    The signal drops whatever error the interceptor returns, and panics
    when the interceptor panics. *)
Theorem progress_signal_intercepted (rc : RequestContext) (alpha : float64)
    (s : Store) (t : progress_Tracker) (ni : NotificationInterceptor)
    (Ht : tracker s = Some t)
    (Hni : interceptor_for s "Progress" = Some ni) :
  let t' := Tracker_SetProgress alpha t in
  let notif :=
    AnyProgressNotification
      {| Progress := alpha;
         ETA := Duration_Seconds (Tracker_ETA t');
         BPS := Tracker_BPS t' |} in
  let ran := ni "Progress"%string notif (heap (shared s)) in
  Consumer_Progress (progress_hooks rc) alpha s
  = (match fst ran with
     | Returned _ => Returned tt
     | Panicked p => Panicked p
     end,
     with_shared (with_heap (snd ran) (shared s)) (with_tracker (Some t') s)).
Proof.
  intros t' notif ran.
  unfold Consumer_Progress. cbn [progress_hooks OnProgress].
  unfold bind at 1. unfold get at 1. cbn beta iota. rewrite Ht.
  unfold bind at 1. unfold modify at 1. cbn beta iota zeta.
  unfold bind at 1. fold t'. fold notif.
  rewrite (Notify_with_interceptor rc "Progress" notif (with_tracker (Some t') s) ni Hni).
  cbn [shared with_tracker]. fold ran.
  destruct ran as [[o|p] h]; reflexivity.
Qed.

End ContextState.

Section ContextRuns.
Import Reference Daemon.
Local Open Scope string_scope.

(** An interceptor for "Log" on the call to "Report": "Progress" stays
    with the connection, and once removed so does "Log". *)
Lemma interceptors_by_method_witness :
  let installed := snd (InterceptNotification report_rc "Log" journal store) in
  interceptor_for installed "Progress" = None
  /\ interceptor_for installed "Log" = Some journal
  /\ snd (StopInterceptingNotification report_rc "Log" store) = store
  /\ outbound (shared (snd (Notify report_rc "Log" (AnyString "hello")
                   (snd (StopInterceptingNotification report_rc "Log" installed)))))
     = [OutNotify "Log" (AnyString "hello")].
Proof.
  intros installed.
  destruct (interceptors_by_method report_rc "Log" journal store)
    as (Hother & _ & _ & Hnil & Hback).
  split; [|split; [reflexivity|split]].
  - destruct (Hother "Progress" ltac:(discriminate)) as (Hi & _).
    fold installed in Hi. rewrite Hi. reflexivity.
  - apply Hnil. reflexivity.
  - fold installed in Hback. rewrite Hback. reflexivity.
Defined.

(** The call to "Report" starts progress twice. *)
Lemma StartProgress_starts_or_warns_witness :
  let once := snd (StartProgress report_rc store) in
  let twice := snd (StartProgress report_rc once) in
  tracker once
  = Some {| t_silent := true; t_progress := 0%Q; t_total := 0; t_running := true |}
  /\ consumer_log (shared once) = []
  /\ tracker twice = tracker once
  /\ consumer_log (shared twice)
     = [("warning", "Asked to start progress but already tracking progress!")].
Proof.
  intros once twice.
  destruct (StartProgress_starts_or_warns report_rc float64_zero 0 store)
    as (Hnew & _ & _ & Hsp & Hsame).
  destruct (StartProgress_starts_or_warns report_rc float64_zero 0 once)
    as (_ & Hwarn & _ & Hsp' & _).
  split; [|split; [|split]].
  - unfold once. rewrite Hsp, (Hnew ltac:(reflexivity)). reflexivity.
  - unfold once. rewrite Hsp, (Hnew ltac:(reflexivity)). reflexivity.
  - exact Hsame.
  - unfold twice. rewrite Hsp', (Hwarn _ ltac:(reflexivity)). reflexivity.
Defined.

(** The call to "Report" starts and ends progress, then ends it again. *)
Lemma EndProgress_stops_or_warns_witness :
  let started := snd (StartProgress report_rc store) in
  snd (EndProgress report_rc started) = store
  /\ consumer_log (shared (snd (EndProgress report_rc store)))
     = [("warning", "Asked to stop progress but wasn't tracking progress!")]
  /\ Consumer_Progress (progress_hooks report_rc) (1 # 2)%Q
       (snd (EndProgress report_rc started))
     = (Returned tt, snd (EndProgress report_rc started)).
Proof.
  intros started.
  destruct (EndProgress_stops_or_warns report_rc store) as (_ & Hwarn & Hround & _).
  destruct (EndProgress_stops_or_warns report_rc started) as (_ & _ & _ & Hignored).
  split; [|split].
  - exact (Hround 0%Q 0 ltac:(reflexivity)).
  - rewrite (Hwarn ltac:(reflexivity)). reflexivity.
  - exact (Hignored (1 # 2)%Q).
Defined.

(** Pause and resume on the running tracker of the call to "Report". *)
Lemma pause_resume_label_bridged_witness :
  let started := snd (StartProgress report_rc store) in
  t_running <$> tracker (snd (Consumer_PauseProgress (progress_hooks report_rc) started))
  = Some false
  /\ t_running <$> tracker (snd (Consumer_ResumeProgress (progress_hooks report_rc)
                                (snd (Consumer_PauseProgress (progress_hooks report_rc) started))))
     = Some true
  /\ Consumer_PauseProgress (progress_hooks report_rc) store = (Returned tt, store).
Proof.
  intros started.
  destruct (pause_resume_label_bridged report_rc "unpacking" started) as (Hrun & _).
  destruct (Hrun _ ltac:(reflexivity)) as (Hpause & _).
  destruct (pause_resume_label_bridged report_rc "unpacking"
              (snd (Consumer_PauseProgress (progress_hooks report_rc) started)))
    as (Hrun' & _).
  destruct (Hrun' _ ltac:(reflexivity)) as (_ & Hresume).
  destruct (pause_resume_label_bridged report_rc "unpacking" store) as (_ & Hidle & _).
  split; [|split].
  - rewrite Hpause. reflexivity.
  - rewrite Hresume. reflexivity.
  - exact (proj1 (Hidle ltac:(reflexivity))).
Defined.

(** The call to "Report" intercepts "Progress", starts progress and
    signals one half: the journal gets the method, the connection
    nothing. *)
Lemma progress_signal_intercepted_witness :
  let s := snd (StartProgress report_rc
             (snd (InterceptNotification report_rc "Progress" journal store))) in
  tracker s
  = Some {| t_silent := true; t_progress := 0%Q; t_total := 0; t_running := true |}
  /\ interceptor_for s "Progress" = Some journal
  /\ fst (Consumer_Progress (progress_hooks report_rc) (1 # 2)%Q s) = Returned tt
  /\ heap (shared (snd (Consumer_Progress (progress_hooks report_rc) (1 # 2)%Q s)))
     = ["Progress"]
  /\ outbound (shared (snd (Consumer_Progress (progress_hooks report_rc) (1 # 2)%Q s)))
     = [].
Proof.
  intros s.
  assert (Ht : tracker s
    = Some {| t_silent := true; t_progress := 0%Q; t_total := 0; t_running := true |})
    by reflexivity.
  assert (Hni : interceptor_for s "Progress" = Some journal) by reflexivity.
  split; [exact Ht|]. split; [exact Hni|].
  rewrite (progress_signal_intercepted report_rc (1 # 2)%Q s _ journal Ht Hni).
  split; [|split]; reflexivity.
Defined.

End ContextRuns.

(** ** Pool discipline *)

Section PoolDiscipline.
Context `{L : GoLibs}.

(** X10. [WithConn] and [WithConnBool] run the callback on the connection
    that [Get] hands out and put that connection back when the callback
    leaves, by return or by panic; the callback's result or panic is
    theirs. When the callback itself leaves the pool alone, the pool after
    the call is the pool after [Get] with the connection put back. *)
Theorem WithConn_always_releases (rc : RequestContext)
    (f : sqlite_Conn -> M Store unit) (g : sqlite_Conn -> M Store bool)
    (s : Store) (conn : sqlite_Conn) (pool : sqlite_Pool)
    (Hget : Pool_Get (rc_Ctx rc) (DBPool (shared s)) = (conn, pool)) :
  let taken := with_shared (with_DBPool pool (shared s)) s in
  WithConn rc f s = (fst (f conn taken), DBPool_Put conn (snd (f conn taken)))
  /\ WithConnBool rc g s = (fst (g conn taken), DBPool_Put conn (snd (g conn taken)))
  /\ (DBPool (shared (snd (f conn taken))) = pool ->
      DBPool (shared (snd (WithConn rc f s))) = Pool_Put conn pool)
  /\ (DBPool (shared (snd (g conn taken))) = pool ->
      DBPool (shared (snd (WithConnBool rc g s))) = Pool_Put conn pool).
Proof.
  intros taken.
  assert (Hf : WithConn rc f s
               = (fst (f conn taken), DBPool_Put conn (snd (f conn taken)))).
  { unfold WithConn, DBPool_Get. run. rewrite Hget. cbn. fold taken.
    now destruct (f conn taken). }
  assert (Hg : WithConnBool rc g s
               = (fst (g conn taken), DBPool_Put conn (snd (g conn taken)))).
  { unfold WithConnBool, DBPool_Get. run. rewrite Hget. cbn. fold taken.
    now destruct (g conn taken). }
  split; [exact Hf|]. split; [exact Hg|]. split.
  - intros Hkept. rewrite Hf. cbn. now rewrite Hkept.
  - intros Hkept. rewrite Hg. cbn. now rewrite Hkept.
Qed.

(** X11. For a nonzero identifier whose profile exists and has a
    non-empty API key, [ProfileClient] returns the profile with the
    client that the resolver gives for that key. For every nonzero
    identifier, whatever the lookup answers, the store it leaves is the
    one where the connection it took is back in the pool. *)
Theorem ProfileClient_returns_client (rc : RequestContext) (profileID : Z)
    (s : Store) (conn : sqlite_Conn) (pool : sqlite_Pool)
    (Hnz : profileID <> 0)
    (Hget : Pool_Get (rc_Ctx rc) (DBPool (shared s)) = (conn, pool)) :
  (forall profile : models_Profile,
      models_ProfileByID conn profileID = Some profile ->
      Profile_APIKey profile <> ""%string ->
      ProfileClient rc profileID s
      = (Returned (profile, rc_Client rc (Profile_APIKey profile)),
         with_shared (with_DBPool (Pool_Put conn pool) (shared s)) s))
  /\ snd (ProfileClient rc profileID s)
     = with_shared (with_DBPool (Pool_Put conn pool) (shared s)) s.
Proof.
  unfold ProfileClient, DBPool_Get, DBPool_Put.
  destruct (Z.eqb_spec profileID 0) as [|_]; [contradiction|].
  run. rewrite Hget. cbn. split.
  - intros profile Hfound Hkey. rewrite Hfound.
    destruct (String.eqb_spec (Profile_APIKey profile) "") as [|_];
      [contradiction|reflexivity].
  - destruct (models_ProfileByID conn profileID) as [profile|]; [|reflexivity].
    now destruct (String.eqb (Profile_APIKey profile) "").
Qed.

End PoolDiscipline.

Section PoolRuns.
Import Reference Daemon.
Local Open Scope string_scope.

(** A query that panics and one that returns, on the pool of 7 and 8. *)
Lemma WithConn_always_releases_witness :
  WithConn report_rc failing_query store
  = (Panicked (PanicError (Fundamental "SQL logic error")),
     with_shared (with_DBPool [8; 7]%nat (shared store)) store)
  /\ WithConnBool report_rc counting_query store
     = (Returned true, with_shared (with_DBPool [8; 7]%nat (shared store)) store).
Proof.
  destruct (WithConn_always_releases (T := RefTypes) (L := RefLibs) report_rc failing_query counting_query store
              7%nat [8]%nat ltac:(reflexivity)) as (Hf & Hg & _).
  split; [exact Hf | exact Hg].
Defined.

(** Profile 1 exists and has a key. *)
Lemma ProfileClient_returns_client_witness :
  ProfileClient report_rc 1 store
  = (Returned ({| p_id := 1; p_APIKey := "key-of-1" |}, "key-of-1"),
     with_shared (with_DBPool [8; 7]%nat (shared store)) store)
  /\ snd (ProfileClient report_rc 5 store)
     = with_shared (with_DBPool [8; 7]%nat (shared store)) store.
Proof.
  split.
  - apply (proj1 (ProfileClient_returns_client (T := RefTypes) (L := RefLibs) report_rc 1 store 7%nat [8]%nat
                    ltac:(discriminate) ltac:(reflexivity))).
    + reflexivity.
    + discriminate.
  - exact (proj2 (ProfileClient_returns_client (T := RefTypes) (L := RefLibs) report_rc 5 store 7%nat [8]%nat
                    ltac:(discriminate) ltac:(reflexivity))).
Defined.

End PoolRuns.

(** ** Dispatch, the other paths *)

Section DispatchPaths.
Context `{L : GoLibs}.

(** X12. When a registered request handler returns a result and no
    error, Dispatch sends that result as the one reply to the request's
    identifier and keeps what the handler left in the shared state. When
    the connection refuses the reply, Dispatch logs "Error while
    replying: <the connection's error>" at error level, sends no error
    reply, and returns. *)
Theorem Dispatch_replies_result (r : Router) (ctx : context_Context)
    (origConn : jsonrpc2_Conn) (req : jsonrpc2_Request) (w : World)
    (consumer : Consumer) (h : RequestHandler)
    (res : option any) (st : Store)
    (Hreq : Notif req = false)
    (Hcons : NewStateConsumer ctx (JsonRPC2Conn origConn) = (consumer, None))
    (Hh : Handlers r !! Method req = Some h)
    (Hrun : h (with_rc_Consumer
                 (progress_hooks (request_context r ctx (JsonRPC2Conn origConn) consumer req))
                 (request_context r ctx (JsonRPC2Conn origConn) consumer req))
              (fresh_store w) = (Returned (res, None), st)) :
  let sent :=
    with_replies (replies w ++ [SentReply (ID req) res])
      (with_w_shared (shared st) w) in
  (conn_err origConn = None ->
   Dispatch r ctx origConn req w = (Returned tt, sent))
  /\ (forall e : error,
        conn_err origConn = Some e ->
        Dispatch r ctx origConn req w
        = (Returned tt,
           with_w_shared
             (with_consumer_log
                (consumer_log (shared st)
                 ++ [("error"%string, ("Error while replying: " ++ error_Error e)%string)])
                (shared st)) sent)).
Proof.
  intros sent.
  assert (Hd := Dispatch_after_call r ctx origConn req w consumer res None st Hcons).
  rewrite Hreq in Hd. cbn zeta in Hd.
  assert (Hrec : recovering
            (invoke r req (request_context r ctx (JsonRPC2Conn origConn) consumer req))
            (fresh_store w) = (Returned (res, None), st)).
  { unfold invoke. spell_out. rewrite Hreq, Hh. unfold recovering. now rewrite Hrun. }
  specialize (Hd Hrec). split.
  - intros Hok. rewrite Hd, Hok. reflexivity.
  - intros e He. rewrite Hd, He. reflexivity.
Qed.


(** X14. The error reply for a failure that is not a butlerd error
    carries one of the three fixed codes, and the data given to the
    encoder has exactly the two entries "stack" and "butlerVersion". *)
Theorem reply_error_plain_failure (r : Router) (origConn : jsonrpc2_Conn)
    (req : jsonrpc2_Request) (err : error) (w : World)
    (Hplain : AsButlerdError err = None) :
  exists (code : Z) (message : string) (m : gmap string any),
    reply_error r origConn req err w
    = (Returned tt,
       with_replies
         (replies w ++
          [SentError (ID req)
             {| Code := code; Message := message; Data := json_Marshal m |}]) w)
    /\ (code = CodeNetworkDisconnected \/ code = CodeOperationCancelled
        \/ code = jsonrpc2_CodeInternalError)
    /\ m = <["butlerVersion"%string := AnyString (ButlerVersionString r)]>
             (<["stack"%string := AnyString (fmt_plus_v err)]> ∅)
    /\ dom m = {["butlerVersion"%string; "stack"%string]}.
Proof.
  exists (fst (fst (classify err))), (snd (fst (classify err))),
    (error_data r err (snd (classify err))).
  split; [apply reply_error_sends|].
  unfold classify. rewrite Hplain.
  assert (Hdom : dom (error_data r err None)
                 = ({["butlerVersion"%string; "stack"%string]} : gset string)).
  { unfold error_data. rewrite !dom_insert_L, dom_empty_L. set_solver. }
  destruct (neterr_IsNetworkError err);
    [|destruct (error_eqb (errors_Cause err) werrors_ErrCancelled)];
    cbn; (split; [tauto|]); (split; [reflexivity|exact Hdom]).
Qed.



End DispatchPaths.

Section DispatchRuns.
Import Reference Daemon.
Local Open Scope string_scope.

(** "Ping" answers "pong", on the healthy connection and on the broken
    one. *)
Lemma Dispatch_replies_result_witness :
  Dispatch router2 background conn (request "Ping" 3) world
  = (Returned tt,
     with_replies [SentReply 3%nat (Some (AnyString "pong"))] world)
  /\ Dispatch router2 background broken_conn (request "Ping" 3) world
     = (Returned tt,
        with_w_shared
          (with_consumer_log
             [("error", "Error while replying: dial tcp: connection refused")]
             (w_shared world))
          (with_replies [SentReply 3%nat (Some (AnyString "pong"))] world)).
Proof.
  split.
  - apply (Dispatch_replies_result (T := RefTypes) (L := RefLibs)
             router2 background conn (request "Ping" 3) world
             (fst (NewStateConsumer background (JsonRPC2Conn conn))) ping
             (Some (AnyString "pong")) (fresh_store world));
      reflexivity.
  - apply (proj2 (Dispatch_replies_result (T := RefTypes) (L := RefLibs)
             router2 background broken_conn (request "Ping" 3) world
             (fst (NewStateConsumer background (JsonRPC2Conn broken_conn))) ping
             (Some (AnyString "pong")) (fresh_store world)
             ltac:(reflexivity) ltac:(reflexivity) ltac:(reflexivity)
             ltac:(reflexivity)) refused_dial).
    reflexivity.
Defined.


(** The failure "disk full" is no butlerd error. *)
Lemma reply_error_plain_failure_witness :
  exists (code : Z) (message : string) (m : gmap string any),
    reply_error router conn (request "Fail.Plain" 1) (Fundamental "disk full") world
    = (Returned tt,
       with_replies
         [SentError 1%nat
            {| Code := code; Message := message; Data := json_Marshal m |}] world)
    /\ (code = 9000 \/ code = 499 \/ code = -32603)
    /\ m = <["butlerVersion" := AnyString "v15.21.0, built on Apr 1 2021"]>
             (<["stack" := AnyString ("disk full" ++ ref_trace)]> ∅)
    /\ dom m = {["butlerVersion"; "stack"]}.
Proof.
  apply (reply_error_plain_failure (T := RefTypes) (L := RefLibs)
           router conn (request "Fail.Plain" 1) (Fundamental "disk full") world).
  reflexivity.
Defined.



End DispatchRuns.
